(** * The connection coordinator of src/server.js

    A shallow embedding of the WebSocket coordinator: the connection
    classifier ([wss.on('connection')]), the room coordinator
    ([handleRoomMessage], [handleJoinRoom], [handleParticipantLeave],
    [broadcastToRoom], [saveChatMessage], [handleAdminMediaControl]), the
    device relay ([handleDeviceMessage], [updateDeviceStatus]), the document
    methods and the schema of src/models/Room.js they use, and the
    start-call and end-call routes of src/routes/Room.js.

    Modelling conventions.
    - Every [ws] object is a cell of a heap [conns], addressed by a number;
      the two registries ([rooms], [connectedDevices]) hold such addresses,
      so that a registry entry and the handler's [ws] alias the same object.
    - A string is the sequence of the bytes of its UTF-8 encoding.
    - The persisted stores are finite maps. [save()] applies the schema of
      src/models/Room.js and is refused when the document does not pass it
      ([validRoom]); the store answers every query, no other failure of the
      store is modelled.
    - [step] takes one socket event and runs its handler to the end: it is
      the schedule in which the store has answered every [await] of a
      handler before the next event is taken. The message listener does not
      await its handlers, so other schedules exist; the schedules in which
      join-room handlers are suspended at [await Room.findOne] while further
      join-room messages arrive are modelled separately ([sched]). The
      routes of src/routes/Room.js write the same store; two of them are
      modelled ([httpStartCall], [httpEndCall]) and are no events of [step].
    - A handler reads the clock at several of its lines; the model gives a
      handler invocation one reading, [now], in milliseconds since the
      epoch.
    - [ws.send(JSON.stringify(o))] appends [(ws, o)] to the list of messages
      the handler returns, in the order of the calls, whatever the state of
      the socket.
    - A message is the value [JSON.parse] returned, an object. The logging
      lines are not modelled: a message from which a template literal of a
      logging line cannot make a string (a field it prints is an object
      with a toString field) is no [Message] event of the model.
    - A join-room message is modelled when its [roomId], [participantId] and
      [participantName] fields are strings or falsy ([joinArgs]); the device
      relay is modelled for a [deviceId] and a [targetDeviceId] that are
      strings or falsy ([deviceKey], [strField]). *)

From stdpp Require Import base gmap list strings pretty.
From Stdlib Require Import ZArith Lia.

Local Open Scope Z_scope.

(** ** JavaScript values carried by messages *)

#[local] Unset Elimination Schemes.
Inductive JVal : Type :=
| JNull
| JBool (b : bool)
| JNum (n : Z)                 (* an integer-valued number *)
| JStr (s : string)
| JDate (ms : Z)              (* a Date; JSON.stringify renders it in ISO form *)
| JDecrypted (c : string)     (* CryptoJS result for ciphertext c, or 'Anonymous' when it is empty or fails *)
| JObj (fields : list (string * JVal))
| JArr (items : list JVal).
#[local] Set Elimination Schemes.

(* A JS object: fields in insertion order. *)
Abbreviation JObject := (list (string * JVal)).

Fixpoint obj_get (k : string) (o : JObject) : option JVal :=
  match o with
  | [] => None
  | (k', v) :: o' => if String.eqb k' k then Some v else obj_get k o'
  end.

(* o[k] = v: an existing key keeps its position, a new key goes last. *)
Fixpoint obj_set (k : string) (v : JVal) (o : JObject) : JObject :=
  match o with
  | [] => [(k, v)]
  | (k', v') :: o' =>
      if String.eqb k' k then (k, v) :: o' else (k', v') :: obj_set k v o'
  end.

Definition obj_remove (k : string) (o : JObject) : JObject :=
  filter (λ kv, kv.1 ≠ k) o.

(* { ...base, ...extra } *)
Definition obj_spread (base extra : JObject) : JObject :=
  foldl (λ acc kv, obj_set kv.1 kv.2 acc) base extra.

(* A field whose value may be undefined: JSON.stringify leaves it out. *)
Definition obj_opt (k : string) (v : option JVal) : JObject :=
  match v with
  | Some x => [(k, x)]
  | None => []
  end.

Definition truthy (v : option JVal) : bool :=
  match v with
  | None | Some JNull => false
  | Some (JBool b) => b
  | Some (JNum n) => negb (n =? 0)
  | Some (JStr s) => negb (String.eqb s "")
  | Some _ => true
  end.

(* [x || fallback] for a string-valued [x]: null and '' are falsy. *)
Definition truthyStr (o : option string) : bool :=
  match o with
  | Some s => negb (String.eqb s "")
  | None => false
  end.

(* A field read as a string: the device relay's reading of targetDeviceId. *)
Definition strField (k : string) (o : JObject) : option string :=
  match obj_get k o with
  | Some (JStr s) => if String.eqb s "" then None else Some s
  | _ => None
  end.

Definition orElse (a b : option string) : option string :=
  if truthyStr a then a else b.

Definition jopt (o : option string) : JVal :=
  match o with
  | Some s => JStr s
  | None => JNull
  end.

(* [data.k || fallback] on values. *)
Definition orVal (v : option JVal) (fallback : JVal) : JVal :=
  match v with
  | Some x => if truthy v then x else fallback
  | None => fallback
  end.

(* [data.k || fallback] when data.k, if truthy, is a string. None when data.k
   is a truthy value of another type: the message is then outside the
   model. *)
Definition textOr (v : option JVal) (fallback : option string)
    : option (option string) :=
  match v with
  | Some (JStr s) => Some (if String.eqb s "" then fallback else Some s)
  | _ => if truthy v then None else Some fallback
  end.

(* The String cast mongoose applies to a value stored under a String path
   (castString): a string as it is, a number or boolean through toString,
   an object through a non-empty string _id. None stands for a CastError
   (arrays, other objects) and for null, which stays null; a number beyond
   the safe integers, whose toString is not its decimal digits, is not
   modelled and also gives None. *)
Definition castString (v : JVal) : option string :=
  match v with
  | JStr s => Some s
  | JNum n =>
      if (Z.abs n <=? 9007199254740991) then Some (pretty n) else None
  | JBool b => Some (if b then "true" else "false")
  | JObj fields =>
      match obj_get "_id" fields with
      | Some (JStr s) => if String.eqb s "" then None else Some s
      | _ => None
      end
  | _ => None
  end.

(** ** Strings *)

Definition byteIs (a : Ascii.ascii) (n : nat) : bool :=
  (Ascii.nat_of_ascii a =? n)%nat.

(* The white space and line terminators of one byte: U+0009 to U+000D and
   U+0020. *)
Definition isSpace (a : Ascii.ascii) : bool :=
  let n := Ascii.nat_of_ascii a in
  ((9 <=? n)%nat && (n <=? 13)%nat) || (n =? 32)%nat.

(* U+00A0 *)
Definition isSpace2 (a b : Ascii.ascii) : bool :=
  byteIs a 194 && byteIs b 160.

(* U+1680, U+2000 to U+200A, U+2028, U+2029, U+202F, U+205F, U+3000, U+FEFF *)
Definition isSpace3 (a b c : Ascii.ascii) : bool :=
  let n := Ascii.nat_of_ascii c in
  (byteIs a 225 && byteIs b 154 && byteIs c 128)
  || (byteIs a 226 && byteIs b 128
      && (((128 <=? n)%nat && (n <=? 138)%nat)
          || (n =? 168)%nat || (n =? 169)%nat || (n =? 175)%nat))
  || (byteIs a 226 && byteIs b 129 && byteIs c 159)
  || (byteIs a 227 && byteIs b 128 && byteIs c 128)
  || (byteIs a 239 && byteIs b 187 && byteIs c 191).

(* The string is one white space character. *)
Definition isWhite (s : string) : bool :=
  match s with
  | String a EmptyString => isSpace a
  | String a (String b EmptyString) => isSpace2 a b
  | String a (String b (String c EmptyString)) => isSpace3 a b c
  | _ => false
  end.

Fixpoint trimStart (s : string) : string :=
  match s with
  | EmptyString => EmptyString
  | String a s1 =>
      if isSpace a then trimStart s1
      else
        match s1 with
        | EmptyString => s
        | String b s2 =>
            if isSpace2 a b then trimStart s2
            else
              match s2 with
              | EmptyString => s
              | String c s3 => if isSpace3 a b c then trimStart s3 else s
              end
        end
  end.

Fixpoint trimEnd (s : string) : string :=
  match s with
  | EmptyString => EmptyString
  | String a s' =>
      let t := String a (trimEnd s') in
      if isWhite t then EmptyString else t
  end.

(* String.prototype.trim *)
Definition trim (s : string) : string := trimEnd (trimStart s).

Definition hexVal (a : Ascii.ascii) : option nat :=
  let n := Ascii.nat_of_ascii a in
  if (48 <=? n)%nat && (n <=? 57)%nat then Some (n - 48)%nat
  else if (65 <=? n)%nat && (n <=? 70)%nat then Some (n - 55)%nat
  else if (97 <=? n)%nat && (n <=? 102)%nat then Some (n - 87)%nat
  else None.

(* An escape %XX at the head of the string: its byte and the rest. *)
Definition escape (s : string) : option (nat * string) :=
  match s with
  | String p (String h (String l r)) =>
      if byteIs p 37 then
        match hexVal h, hexVal l with
        | Some x, Some y => Some (16 * x + y, r)%nat
        | _, _ => None
        end
      else None
  | _ => None
  end.

Definition inRange (lo hi n : nat) : bool := (lo <=? n)%nat && (n <=? hi)%nat.

(* The escapes that continue a UTF-8 sequence whose first byte is b: the
   bytes of the sequence after b and the rest of the string, when the
   sequence is the encoding of a code point. *)
Definition continuation (b : nat) (s : string) : option (list nat * string) :=
  if inRange 194 223 b then
    match escape s with
    | Some (c1, r1) => if inRange 128 191 c1 then Some ([c1], r1) else None
    | None => None
    end
  else if inRange 224 239 b then
    match escape s with
    | Some (c1, r1) =>
        match escape r1 with
        | Some (c2, r2) =>
            if inRange (if (b =? 224)%nat then 160 else 128)
                       (if (b =? 237)%nat then 159 else 191) c1
               && inRange 128 191 c2
            then Some ([c1; c2], r2) else None
        | None => None
        end
    | None => None
    end
  else if inRange 240 244 b then
    match escape s with
    | Some (c1, r1) =>
        match escape r1 with
        | Some (c2, r2) =>
            match escape r2 with
            | Some (c3, r3) =>
                if inRange (if (b =? 240)%nat then 144 else 128)
                           (if (b =? 244)%nat then 143 else 191) c1
                   && inRange 128 191 c2 && inRange 128 191 c3
                then Some ([c1; c2; c3], r3) else None
            | None => None
            end
        | None => None
        end
    | None => None
    end
  else None.

Definition bytesToString (bs : list nat) (s : string) : string :=
  foldr (λ b acc, String (Ascii.ascii_of_nat b) acc) s bs.

Fixpoint decodeFrom (fuel : nat) (s : string) : option string :=
  match fuel with
  | O => match s with EmptyString => Some EmptyString | _ => None end
  | S fuel' =>
      match s with
      | EmptyString => Some EmptyString
      | String a r =>
          if byteIs a 37 then
            match escape s with
            | None => None
            | Some (b, r1) =>
                if (b <? 128)%nat then
                  String (Ascii.ascii_of_nat b) <$> decodeFrom fuel' r1
                else
                  match continuation b r1 with
                  | Some (bs, r2) =>
                      bytesToString (b :: bs) <$> decodeFrom fuel' r2
                  | None => None
                  end
            end
          else String a <$> decodeFrom fuel' r
      end
  end.

(* decodeURIComponent; None stands for the URIError it throws on a
   malformed escape sequence. *)
Definition decodeURIComponent (s : string) : option string :=
  decodeFrom (String.length s) s.

(* server.js:38 *)
Definition decrypt (ciphertext : string) : JVal :=
  if String.eqb ciphertext "" then JStr "Anonymous" else JDecrypted ciphertext.

(* server.js:50, on an object: the shallow copy { ...data }, that is the same
   fields in the same order. *)
Definition sanitizeForClient (data : JObject) : JObject := data.

(** ** Connections *)

Inductive ServiceType : Type := SvcRoom | SvcDevice.

Inductive ReadyState : Type := CONNECTING | OPEN | CLOSING | CLOSED.

Record Conn : Type := mkConn {
  ws_serviceType : option ServiceType;
  ws_roomId : option string;
  ws_participantId : option string;
  ws_participantName : string;
  ws_role : string;
  ws_leftHandled : bool;
  ws_deviceId : option string;
  ws_readyState : ReadyState
}.

Definition isOpen (c : Conn) : bool :=
  match ws_readyState c with
  | OPEN => true
  | _ => false
  end.

(* A JS Map from participant id to connection, in insertion order. *)
Abbreviation PMap := (list (option string * nat)).

Definition keyEq (a b : option string) : bool := bool_decide (a = b).

Fixpoint pmap_get (k : option string) (m : PMap) : option nat :=
  match m with
  | [] => None
  | (k', c) :: m' => if keyEq k' k then Some c else pmap_get k m'
  end.

Fixpoint pmap_set (k : option string) (c : nat) (m : PMap) : PMap :=
  match m with
  | [] => [(k, c)]
  | (k', c') :: m' =>
      if keyEq k' k then (k, c) :: m' else (k', c') :: pmap_set k c m'
  end.

Definition pmap_delete (k : option string) (m : PMap) : PMap :=
  filter (λ e, e.1 ≠ k) m.

(** ** The persisted room document (src/models/Room.js) *)

Inductive Status : Type := waiting | active | ended.

(* An id is None when the document has none (null or missing). *)
Record Participant : Type := mkParticipant {
  p_participantId : option string;
  p_participantName : string;
  p_role : string;
  p_joinedAt : Z;
  p_leftAt : option Z
}.

Record ChatMessage : Type := mkChatMessage {
  cm_senderId : option string;
  cm_senderName : string;
  cm_message : string;
  cm_timestamp : Z;
  cm_sessionId : option string
}.

Record Metadata : Type := mkMetadata {
  totalParticipants : Z;
  maxParticipants : Z
}.

(* The paths of roomSchema that the coordinator and the routes below read or
   write. server.js also assigns sessionStartTime and metadata.reconnections,
   which the schema does not declare: they are not stored. *)
Record DbRoom : Type := mkDbRoom {
  db_roomId : string;
  sessionId : option string;
  creator : option string * string * string;
  participants : list Participant;
  chatMessages : list ChatMessage;
  status : Status;
  callStartTime : option Z;
  callEndTime : option Z;
  callDuration : Z;
  metadata : Metadata;
  updatedAt : Z
}.

(* p.participantId === participantId, for an argument that is a string or
   null: null equals no stored id. *)
Definition idMatch (stored arg : option string) : bool :=
  match stored, arg with
  | Some a, Some b => String.eqb a b
  | _, _ => false
  end.

Definition hasParticipant (pid : option string) (ps : list Participant) : bool :=
  existsb (λ p, idMatch (p_participantId p) pid) ps.

(* roomSchema.methods.addParticipant *)
Definition addParticipant (now : Z) (pid : option string) (name role : string)
    (r : DbRoom) : DbRoom :=
  if hasParticipant pid (participants r) then r
  else
    let ps := participants r ++ [mkParticipant pid name role now None] in
    mkDbRoom (db_roomId r) (sessionId r) (creator r) ps (chatMessages r)
      (status r) (callStartTime r) (callEndTime r) (callDuration r)
      (mkMetadata (Z.of_nat (length ps)) (maxParticipants (metadata r)))
      (updatedAt r).

(* The first entry with the given id gets leftAt, unless it has one. *)
Fixpoint markLeft (now : Z) (pid : option string) (ps : list Participant)
    : list Participant :=
  match ps with
  | [] => []
  | p :: ps' =>
      if idMatch (p_participantId p) pid then
        match p_leftAt p with
        | Some _ => p :: ps'
        | None =>
            mkParticipant (p_participantId p) (p_participantName p) (p_role p)
              (p_joinedAt p) (Some now) :: ps'
        end
      else p :: markLeft now pid ps'
  end.

(* roomSchema.methods.removeParticipant *)
Definition removeParticipant (now : Z) (pid : option string) (r : DbRoom) : DbRoom :=
  mkDbRoom (db_roomId r) (sessionId r) (creator r)
    (markLeft now pid (participants r)) (chatMessages r)
    (status r) (callStartTime r) (callEndTime r) (callDuration r)
    (metadata r) (updatedAt r).

(* roomSchema.methods.calculateDuration: Math.floor((end - start) / 1000) *)
Definition calculateDuration (r : DbRoom) : DbRoom :=
  match callStartTime r, callEndTime r with
  | Some s, Some e =>
      mkDbRoom (db_roomId r) (sessionId r) (creator r) (participants r)
        (chatMessages r) (status r) (callStartTime r) (callEndTime r)
        ((e - s) / 1000) (metadata r) (updatedAt r)
  | _, _ => r
  end.

(* chatMessages.push of roomSchema.methods.addChatMessage *)
Definition pushChatMessage (m : ChatMessage) (r : DbRoom) : DbRoom :=
  mkDbRoom (db_roomId r) (sessionId r) (creator r) (participants r)
    (chatMessages r ++ [m])
    (status r) (callStartTime r) (callEndTime r) (callDuration r)
    (metadata r) (updatedAt r).

(** *** The schema, as [save()] applies it *)

Definition nonEmpty (s : string) : bool := negb (String.eqb s "").

(* required: true on a String path *)
Definition requiredId (o : option string) : bool :=
  match o with
  | Some s => nonEmpty s
  | None => false
  end.

(* enum: ['admin', 'user'] *)
Definition validRole (role : string) : bool :=
  String.eqb role "admin" || String.eqb role "user".

Definition validParticipant (p : Participant) : bool :=
  requiredId (p_participantId p) && nonEmpty (p_participantName p)
  && validRole (p_role p).

Definition validChat (m : ChatMessage) : bool :=
  requiredId (cm_senderId m) && nonEmpty (cm_senderName m)
  && nonEmpty (cm_message m).

Definition validCreator (c : option string * string * string) : bool :=
  requiredId c.1.1 && nonEmpty c.1.2 && validRole c.2.

(* The document passes roomSchema: save() is refused otherwise. *)
Definition validRoom (r : DbRoom) : bool :=
  nonEmpty (db_roomId r) && validCreator (creator r)
  && forallb validParticipant (participants r)
  && forallb validChat (chatMessages r).

(** ** The persisted device document (only the fields server.js writes) *)

Inductive DeviceStatus : Type := online | offline | busy.

Record Device : Type := mkDevice {
  dev_status : DeviceStatus;
  dev_updatedAt : Z
}.

(** ** Server state *)

Record State : Type := mkState {
  conns : gmap nat Conn;                        (* the ws objects *)
  nextConn : nat;                               (* address of the next ws object *)
  rooms : gmap string PMap;                     (* rooms: roomId -> participants *)
  connectedDevices : gmap (option string) nat;  (* connectedDevices *)
  roomDb : gmap string DbRoom;                  (* Room collection, by roomId *)
  deviceDb : gmap string Device                 (* Device collection, by deviceId *)
}.

Abbreviation Out := (list (nat * JObject)).

Definition setConns (f : gmap nat Conn → gmap nat Conn) (st : State) : State :=
  mkState (f (conns st)) (nextConn st) (rooms st) (connectedDevices st)
    (roomDb st) (deviceDb st).

Definition setRooms (f : gmap string PMap → gmap string PMap) (st : State) : State :=
  mkState (conns st) (nextConn st) (f (rooms st)) (connectedDevices st)
    (roomDb st) (deviceDb st).

Definition setDevices
    (f : gmap (option string) nat → gmap (option string) nat) (st : State) : State :=
  mkState (conns st) (nextConn st) (rooms st) (f (connectedDevices st))
    (roomDb st) (deviceDb st).

Definition setRoomDb (f : gmap string DbRoom → gmap string DbRoom) (st : State) : State :=
  mkState (conns st) (nextConn st) (rooms st) (connectedDevices st)
    (f (roomDb st)) (deviceDb st).

Definition setDeviceDb (f : gmap string Device → gmap string Device) (st : State) : State :=
  mkState (conns st) (nextConn st) (rooms st) (connectedDevices st)
    (roomDb st) (f (deviceDb st)).

(* ws.readyState === WebSocket.OPEN, read through the heap *)
Definition connOpen (st : State) (c : nat) : bool :=
  from_option isOpen false (conns st !! c).

Definition connName (st : State) (c : nat) : string :=
  from_option ws_participantName "" (conns st !! c).

Definition connRole (st : State) (c : nat) : string :=
  from_option ws_role "" (conns st !! c).

(** ** Room coordinator (src/server.js) *)

Definition msgFull (roomId : string) : JObject :=
  [("type", JStr "room-status"); ("status", JStr "full"); ("roomId", JStr roomId)].

Definition msgWaiting (roomId role : string) : JObject :=
  [("type", JStr "room-status"); ("status", JStr "waiting");
   ("roomId", JStr roomId); ("role", JStr role)].

Definition msgReady (roomId role : string) (otherId : option string)
    (otherName otherRole : string) : JObject :=
  [("type", JStr "room-status"); ("status", JStr "ready");
   ("roomId", JStr roomId); ("role", JStr role);
   ("otherParticipant",
     JObj [("id", jopt otherId); ("name", JStr otherName); ("role", JStr otherRole)])].

Definition decryptedMessage (m : ChatMessage) : JVal :=
  JObj [("senderId", jopt (cm_senderId m));
        ("senderName", decrypt (cm_senderName m));
        ("message", decrypt (cm_message m));
        ("timestamp", JDate (cm_timestamp m));
        ("sessionId", jopt (cm_sessionId m))].

Definition msgChatHistory (roomId : string) (ms : list ChatMessage) : JObject :=
  [("type", JStr "chat-history"); ("roomId", JStr roomId);
   ("chatMessages", JArr (map decryptedMessage ms));
   ("totalMessages", JNum (Z.of_nat (length ms)))].

Definition msgParticipantJoined (pid : option string) (name role : string) : JObject :=
  [("type", JStr "participant-joined"); ("participantId", jopt pid);
   ("participantName", JStr name); ("role", JStr role)].

Definition msgParticipantLeft (pid : option string) : JObject :=
  [("type", JStr "participant-left"); ("participantId", jopt pid)].

Definition msgError (text : string) : JObject :=
  [("type", JStr "error"); ("message", JStr text)].

(* `${roomId}-${now.getTime()}` *)
Definition newSessionId (roomId : string) (now : Z) : string :=
  roomId +:+ "-" +:+ pretty now.

(* participantName || 'Anonymous' *)
Definition nameOrAnonymous (name : string) : string :=
  if String.eqb name "" then "Anonymous" else name.

(* new Room({...}) of handleJoinRoom, as the schema keeps it *)
Definition createRoom (now : Z) (roomId : string) (pid : option string)
    (name role : string) : DbRoom :=
  mkDbRoom roomId (Some (newSessionId roomId now))
    (pid, nameOrAnonymous name, role)
    [mkParticipant pid (nameOrAnonymous name) role now None]
    [] waiting None None 0 (mkMetadata 1 2) now.

(* the branch taken when the loaded document has status 'ended' *)
Definition resetSession (now : Z) (roomId : string) (r : DbRoom) : DbRoom :=
  mkDbRoom (db_roomId r) (Some (newSessionId roomId now)) (creator r)
    [] (chatMessages r) waiting None None 0
    (mkMetadata 0 (maxParticipants (metadata r))) (updatedAt r).

(* the branch taken by the second occupant when the status is 'waiting' *)
Definition startCall (now : Z) (r : DbRoom) : DbRoom :=
  mkDbRoom (db_roomId r) (sessionId r) (creator r) (participants r)
    (chatMessages r) active (Some now) (callEndTime r) (callDuration r)
    (metadata r) (updatedAt r).

Definition setCallEndTime (now : Z) (r : DbRoom) : DbRoom :=
  mkDbRoom (db_roomId r) (sessionId r) (creator r) (participants r)
    (chatMessages r) (status r) (callStartTime r) (Some now) (callDuration r)
    (metadata r) (updatedAt r).

Definition setStatus (s : Status) (r : DbRoom) : DbRoom :=
  mkDbRoom (db_roomId r) (sessionId r) (creator r) (participants r)
    (chatMessages r) s (callStartTime r) (callEndTime r) (callDuration r)
    (metadata r) (updatedAt r).

Definition setUpdatedAt (now : Z) (r : DbRoom) : DbRoom :=
  mkDbRoom (db_roomId r) (sessionId r) (creator r) (participants r)
    (chatMessages r) (status r) (callStartTime r) (callEndTime r) (callDuration r)
    (metadata r) now.

(* the branch taken by the last leaver when the status is 'active' *)
Definition endCall (now : Z) (r : DbRoom) : DbRoom :=
  setStatus ended (calculateDuration (setCallEndTime now r)).

Definition isWaiting (r : DbRoom) : bool :=
  match status r with waiting => true | _ => false end.

Definition isActive (r : DbRoom) : bool :=
  match status r with active => true | _ => false end.

Definition isEnded (r : DbRoom) : bool :=
  match status r with ended => true | _ => false end.


(* Lines 239-293: the document the join works on and the store after the
   saves of that part; None when a save is refused (the catch of line 372
   then ends the handler). *)
Definition loadOrCreate (now : Z) (roomId : string) (pid : option string)
    (name role : string) (db : gmap string DbRoom)
    : option (DbRoom * gmap string DbRoom) :=
  match db !! roomId with
  | None =>
      let d := createRoom now roomId pid name role in
      if validRoom d then Some (d, <[roomId := d]> db) else None
  | Some d0 =>
      let d1 := if isEnded d0 then resetSession now roomId d0 else d0 in
      if hasParticipant pid (participants d1) then Some (d1, db)
      else
        let d2 := addParticipant now pid (nameOrAnonymous name) role d1 in
        if validRoom d2 then Some (d2, <[roomId := d2]> db) else None
  end.

Definition roomOf (roomId : string) (rs : gmap string PMap) : PMap :=
  default [] (rs !! roomId).

(* if (!rooms.has(roomId)) rooms.set(roomId, { participants: new Map() }) *)
Definition ensureRoom (roomId : string) (st : State) : State :=
  match rooms st !! roomId with
  | None => setRooms (insert roomId []) st
  | Some _ => st
  end.

(* Lines 224-237 of handleJoinRoom, which run before its first await: the
   state they leave and the reply that ends the handler, if the room is
   full. *)
Definition joinGate (ws : nat) (roomId : string) (st : State) : State * option Out :=
  let st0 := ensureRoom roomId st in
  if (2 <=? length (roomOf roomId (rooms st0)))%nat
  then (st0, Some [(ws, msgFull roomId)])
  else (st0, None).

(* Lines 239-371 of handleJoinRoom, which run once Room.findOne has
   answered, in the state of that moment. [room] is the object the gate
   obtained: it is read here under roomId, where it is still registered as
   long as no leave has emptied the room in between. *)
Definition joinResume (now : Z) (ws : nat) (roomId : string)
    (participantId : option string) (participantName role : string)
    (st0 : State) : State * Out :=
  let room := roomOf roomId (rooms st0) in
  match loadOrCreate now roomId participantId participantName role (roomDb st0) with
  | None => (st0, [])
  | Some (dbRoom, db1) =>
      let existingParticipants := room in
      let st1 :=
        setRooms (insert roomId (pmap_set participantId ws room))
          (setRoomDb (λ _, db1) st0) in
      match existingParticipants with
      | [] =>
          (st1, [(ws, msgWaiting roomId role);
                 (ws, msgChatHistory roomId (chatMessages dbRoom))])
      | (otherParticipantId, otherWs) :: _ =>
          let notify (d : DbRoom) : Out :=
            [(ws, msgReady roomId role otherParticipantId
                    (connName st0 otherWs) (connRole st0 otherWs));
             (ws, msgChatHistory roomId (chatMessages d));
             (otherWs, msgParticipantJoined participantId participantName role)] in
          if isWaiting dbRoom then
            let d := startCall now dbRoom in
            if validRoom d then (setRoomDb (insert roomId d) st1, notify d)
            else (st1, [])
          else (st1, notify dbRoom)
      end
  end.

(* handleJoinRoom, when nothing else runs while it awaits the store *)
Definition handleJoinRoom (now : Z) (ws : nat) (roomId : string)
    (participantId : option string) (participantName role : string)
    (st : State) : State * Out :=
  match joinGate ws roomId st with
  | (st0, Some out) => (st0, out)
  | (st0, None) => joinResume now ws roomId participantId participantName role st0
  end.

Definition markLeftHandled (c : Conn) : Conn :=
  mkConn (ws_serviceType c) (ws_roomId c) (ws_participantId c)
    (ws_participantName c) (ws_role c) true (ws_deviceId c) (ws_readyState c).

(* The document of a room after a leave by pid that left room' in the
   transient room: lines 421-436 of handleParticipantLeave, before save(). *)
Definition leftDoc (now : Z) (pid : option string) (room' : PMap) (d : DbRoom)
    : DbRoom :=
  let d1 := removeParticipant now pid d in
  setUpdatedAt now
    (if (length room' =? 0)%nat && isActive d1 then endCall now d1 else d1).

Definition handleParticipantLeave (now : Z) (ws : nat) (st : State) : State * Out :=
  match conns st !! ws with
  | None => (st, [])
  | Some c =>
      if ws_leftHandled c then (st, [])
      else
        let st1 := setConns (insert ws (markLeftHandled c)) st in
        match ws_roomId c with
        | None => (st1, [])
        | Some roomId =>
            if negb (truthyStr (ws_roomId c)) || negb (truthyStr (ws_participantId c))
            then (st1, [])
            else
              match rooms st1 !! roomId with
              | None => (st1, [])
              | Some room =>
                  let room' := pmap_delete (ws_participantId c) room in
                  let st2 := setRooms (insert roomId room') st1 in
                  let out :=
                    map (λ e : option string * nat,
                           (e.2, msgParticipantLeft (ws_participantId c))) room' in
                  let finish (st3 : State) : State * Out :=
                    (if (length room' =? 0)%nat
                     then setRooms (delete roomId) st3 else st3, out) in
                  match roomDb st2 !! roomId with
                  | Some dbRoom =>
                      let d := leftDoc now (ws_participantId c) room' dbRoom in
                      if validRoom d
                      then finish (setRoomDb (insert roomId d) st2)
                      else (st2, [])   (* save() refused: the catch ends the handler *)
                  | None => finish st2
                  end
              end
        end
  end.

(* broadcastToRoom(roomId, senderId, data) with includeSender = false *)
Definition broadcastToRoom (roomId : string) (senderId : option string)
    (data : JObject) (st : State) : Out :=
  match rooms st !! roomId with
  | None => []
  | Some room =>
      map (λ e : option string * nat, (e.2, sanitizeForClient data))
        (filter (λ e : option string * nat,
                   e.1 ≠ senderId ∧ connOpen st e.2 = true) room)
  end.

(* The subdocument addChatMessage pushes, once cast to the chat schema:
   None when a value does not cast to a string. *)
Definition chatRecord (now : Z) (sender name msg : JVal) : option ChatMessage :=
  match castString sender, castString (orVal (Some name) (JStr "Anonymous")),
        castString (orVal (Some msg) (JStr "")) with
  | Some s, Some n, Some m => Some (mkChatMessage (Some s) n m now None)
  | _, _, _ => None
  end.

Definition saveChatMessage (now : Z) (roomId : string) (sender name msg : JVal)
    (st : State) : State :=
  match roomDb st !! roomId with
  | Some dbRoom =>
      match chatRecord now sender name msg with
      | Some m =>
          let d := pushChatMessage m dbRoom in
          if validRoom d then setRoomDb (insert roomId d) st else st
      | None => st
      end
  | None => st
  end.

Definition msgChat (now : Z) (roomId : option string) (sender name msg : JVal)
    : JObject :=
  [("type", JStr "chat-message"); ("roomId", jopt roomId);
   ("participantId", sender); ("senderId", sender);
   ("senderName", name); ("message", msg); ("timestamp", JDate now)].

(* The key a JS value denotes in a participant Map, if any entry can have it. *)
Definition mapKey (v : option JVal) : option (option string) :=
  match v with
  | Some (JStr s) => Some (Some s)
  | Some JNull => Some None
  | _ => None
  end.

Definition msgAdminMediaControl (data : JObject) (fromAdmin : option string) : JObject :=
  [("type", JStr "admin-media-control")]
    ++ obj_opt "mediaType" (obj_get "mediaType" data)
    ++ obj_opt "enabled" (obj_get "enabled" data)
    ++ [("fromAdmin", jopt fromAdmin)].

Definition handleAdminMediaControl (ws : nat) (c : Conn) (data : JObject)
    (st : State) : State * Out :=
  if negb (String.eqb (ws_role c) "admin") then
    (st, [(ws, msgError "Only admins can control participant media")])
  else
    match ws_roomId c with
    | None => (st, [])
    | Some roomId =>
        match rooms st !! roomId with
        | None => (st, [])
        | Some room =>
            match mapKey (obj_get "targetParticipantId" data) with
            | None => (st, [])
            | Some target =>
                match pmap_get target room with
                | Some targetWs =>
                    if connOpen st targetWs
                    then (st, [(targetWs,
                                msgAdminMediaControl data (ws_participantId c))])
                    else (st, [])
                | None => (st, [])
                end
            end
        end
    end.

(* The arguments handleRoomMessage passes to handleJoinRoom: roomId,
   participantId and participantName. None when one of the three fields of
   the message is a truthy value that is not a string: such a join-room is
   outside the model. *)
Definition joinArgs (c : Conn) (data : JObject)
    : option (option string * option string * string) :=
  match textOr (obj_get "roomId" data) (ws_roomId c),
        textOr (obj_get "participantId" data) (ws_participantId c),
        textOr (obj_get "participantName" data)
          (Some (nameOrAnonymous (ws_participantName c))) with
  | Some r, Some pid, Some name => Some (r, pid, default "Anonymous" name)
  | _, _, _ => None
  end.

(* The values the chat-message branch works with. *)
Definition chatSender (c : Conn) (data : JObject) : JVal :=
  orVal (obj_get "senderId" data)
    (orVal (obj_get "participantId" data) (jopt (ws_participantId c))).

Definition chatSenderName (c : Conn) (data : JObject) : JVal :=
  orVal (obj_get "senderName" data)
    (orVal (obj_get "participantName" data)
       (JStr (nameOrAnonymous (ws_participantName c)))).

Definition chatText (data : JObject) : JVal :=
  orVal (obj_get "message" data) (JStr "").

Definition handleRoomMessage (now : Z) (ws : nat) (c : Conn) (data : JObject)
    (st : State) : State * Out :=
  match obj_get "type" data with
  | Some (JStr type) =>
      if String.eqb type "join-room" then
        match joinArgs c data with
        | Some (Some r, participantId, participantName) =>
            handleJoinRoom now ws r participantId participantName (ws_role c) st
        | _ => (st, [])
        end
      else if String.eqb type "leave-room" then handleParticipantLeave now ws st
      else if String.eqb type "chat-message" then
        match ws_roomId c with
        | Some r =>
            let st1 :=
              saveChatMessage now r (chatSender c data) (chatSenderName c data)
                (chatText data) st in
            (st1, broadcastToRoom r (ws_participantId c)
                    (msgChat now (ws_roomId c) (chatSender c data)
                       (chatSenderName c data) (chatText data)) st1)
        | None => (st, [])
        end
      else if String.eqb type "webrtc-offer" || String.eqb type "webrtc-answer"
              || String.eqb type "webrtc-ice-candidate" then
        match ws_roomId c with
        | Some r => (st, broadcastToRoom r (ws_participantId c) data st)
        | None => (st, [])
        end
      else if String.eqb type "admin-control-media" then
        handleAdminMediaControl ws c data st
      else (st, [])
  | _ => (st, [])
  end.

(** ** Device relay (src/server.js) *)

(* Device.findOneAndUpdate({deviceId}, {status, updatedAt}) *)
Definition updateDeviceStatus (now : Z) (deviceId : option string)
    (s : DeviceStatus) (st : State) : State :=
  match deviceId with
  | Some d =>
      match deviceDb st !! d with
      | Some _ => setDeviceDb (insert d (mkDevice s now)) st
      | None => st
      end
  | None => st
  end.

Definition setDeviceId (d : option string) (c : Conn) : Conn :=
  mkConn (ws_serviceType c) (ws_roomId c) (ws_participantId c)
    (ws_participantName c) (ws_role c) (ws_leftHandled c) d (ws_readyState c).

(* The registry key of payload.deviceId. *)
Definition deviceKey (v : option JVal) : option string :=
  match v with
  | Some (JStr s) => Some s
  | _ => None
  end.

Definition relayTypes : list string :=
  ["call-initiate"; "call-accept"; "call-reject"; "call-busy"; "call-end";
   "call-missed"; "chat-message"; "webrtc-offer"; "webrtc-answer";
   "webrtc-ice-candidate"].

Definition isRelayType (t : string) : bool :=
  existsb (String.eqb t) relayTypes.

(* const { type, targetDeviceId, ...payload } = data, then the deviceName
   line; None when payload.deviceName.trim is not callable (the TypeError is
   caught by the message listener). *)
Definition devicePayload (data : JObject) : option JObject :=
  let payload := obj_remove "targetDeviceId" (obj_remove "type" data) in
  match obj_get "deviceName" payload with
  | Some (JStr n) =>
      if String.eqb n "" then Some payload
      else Some (obj_set "deviceName" (JStr (nameOrAnonymous (trim n))) payload)
  | v => if truthy v then None else Some payload
  end.

Definition msgForward (type : string) (from : option string) (payload : JObject)
    : JObject :=
  obj_spread [("type", JStr type); ("fromDeviceId", jopt from)]
    (sanitizeForClient payload).

Definition handleDeviceMessage (now : Z) (ws : nat) (c : Conn) (data : JObject)
    (st : State) : State * Out :=
  match devicePayload data with
  | None => (st, [])
  | Some payload =>
      match obj_get "type" data with
      | Some (JStr type) =>
          if String.eqb type "register" then
            let d := deviceKey (obj_get "deviceId" payload) in
            let st1 := setConns (insert ws (setDeviceId d c)) st in
            let st2 := setDevices (insert d ws) st1 in
            let st3 := updateDeviceStatus now d online st2 in
            (st3, [(ws, [("type", JStr "registered")]
                          ++ obj_opt "deviceId" (obj_get "deviceId" payload))])
          else if isRelayType type then
            match strField "targetDeviceId" data with
            | None => (st, [(ws, msgError "Missing targetDeviceId")])
            | Some target =>
                match connectedDevices st !! Some target with
                | Some targetWs =>
                    if connOpen st targetWs
                    then (st, [(targetWs, msgForward type (ws_deviceId c) payload)])
                    else (st, [(ws, msgError ("Device " +:+ target +:+ " is not connected"))])
                | None =>
                    (st, [(ws, msgError ("Device " +:+ target +:+ " is not connected"))])
                end
            end
          else (st, [])
      | _ => (st, [])
      end
  end.

(** ** Connection classifier and event loop *)

(* The query parameters of the connection URL, as searchParams.get returns
   them (None for null). *)
Record Handshake : Type := mkHandshake {
  h_roomId : option string;
  h_deviceId : option string;
  h_participantId : option string;
  h_participantName : option string;
  h_role : option string
}.

(* The fields the connection listener gives the socket; None when
   decodeURIComponent throws, which the listener does not catch. *)
Definition classify (h : Handshake) : option Conn :=
  if truthyStr (h_roomId h) then
    let rawName := default "Anonymous" (orElse (h_participantName h) None) in
    match decodeURIComponent rawName with
    | Some name =>
        Some (mkConn (Some SvcRoom) (h_roomId h) (h_participantId h)
                (nameOrAnonymous (trim name))
                (default "user" (orElse (h_role h) None)) false None OPEN)
    | None => None
    end
  else if truthyStr (h_deviceId h) then
    Some (mkConn (Some SvcDevice) None None "" "" false (h_deviceId h) OPEN)
  else
    Some (mkConn None None None "" "" false None CLOSING).

Definition onConnection (h : Handshake) (st : State) : State * Out :=
  match classify h with
  | None => (st, [])
  | Some c =>
      let ws := nextConn st in
      let st1 :=
        mkState (<[ws := c]> (conns st)) (S ws) (rooms st) (connectedDevices st)
          (roomDb st) (deviceDb st) in
      match ws_serviceType c with
      | Some SvcDevice => (setDevices (insert (ws_deviceId c) ws) st1, [])
      | _ => (st1, [])
      end
  end.

Definition onMessage (now : Z) (ws : nat) (data : JObject) (st : State) : State * Out :=
  match conns st !! ws with
  | Some c =>
      match ws_serviceType c with
      | Some SvcRoom => handleRoomMessage now ws c data st
      | Some SvcDevice => handleDeviceMessage now ws c data st
      | None => (st, [])
      end
  | None => (st, [])
  end.

Definition setReadyState (r : ReadyState) (c : Conn) : Conn :=
  mkConn (ws_serviceType c) (ws_roomId c) (ws_participantId c)
    (ws_participantName c) (ws_role c) (ws_leftHandled c) (ws_deviceId c) r.

(* ws.on('close'): the socket is CLOSED when the listener runs. *)
Definition onClose (now : Z) (ws : nat) (st : State) : State * Out :=
  match conns st !! ws with
  | Some c =>
      let st1 := setConns (insert ws (setReadyState CLOSED c)) st in
      match ws_serviceType c with
      | Some SvcRoom => handleParticipantLeave now ws st1
      | Some SvcDevice =>
          (updateDeviceStatus now (ws_deviceId c) offline
             (setDevices (delete (ws_deviceId c)) st1), [])
      | None => (st1, [])
      end
  | None => (st, [])
  end.

Inductive Event : Type :=
| Connection (h : Handshake)           (* wss 'connection' *)
| Message (ws : nat) (data : JObject)  (* ws 'message', JSON.parse succeeded *)
| Close (ws : nat)                     (* ws 'close' *)
| Closing (ws : nat).                  (* the socket starts its closing handshake *)

Definition step (now : Z) (e : Event) (st : State) : State * Out :=
  match e with
  | Connection h => onConnection h st
  | Message ws data => onMessage now ws data st
  | Close ws => onClose now ws st
  | Closing ws =>
      match conns st !! ws with
      | Some c =>
          if isOpen c then (setConns (insert ws (setReadyState CLOSING c)) st, [])
          else (st, [])
      | None => (st, [])
      end
  end.

(* The event ends the process: its listener throws outside any try. *)
Definition fatal (e : Event) : bool :=
  match e with
  | Connection h => bool_decide (classify h = None)
  | _ => false
  end.

(* Runs a timed trace; the messages sent are concatenated in order. The run
   ends at the first event that ends the process. *)
Fixpoint run (tr : list (Z * Event)) (st : State) : State * Out :=
  match tr with
  | [] => (st, [])
  | (now, e) :: tr' =>
      if fatal e then (st, [])
      else
        let '(st1, o1) := step now e st in
        let '(st2, o2) := run tr' st1 in
        (st2, o1 ++ o2)
  end.

(* A freshly started process: empty registries over whatever is stored. *)
Definition initState (db : gmap string DbRoom) (ddb : gmap string Device) : State :=
  mkState ∅ 0%nat ∅ ∅ db ddb.

Definition reachable (st : State) : Prop :=
  ∃ db ddb tr, st = (run tr (initState db ddb)).1.

(* The join-room request an event carries, as handleRoomMessage resolves it:
   connection, room, participant id, name and role. None for any other
   event, and for a join-room outside the model. *)
Definition joinRequest (e : Event) (st : State)
    : option (nat * string * option string * string * string) :=
  match e with
  | Message ws data =>
      match conns st !! ws with
      | Some c =>
          match ws_serviceType c, obj_get "type" data with
          | Some SvcRoom, Some (JStr type) =>
              if String.eqb type "join-room" then
                match joinArgs c data with
                | Some (Some r, pid, name) => Some (ws, r, pid, name, ws_role c)
                | _ => None
                end
              else None
          | _, _ => None
          end
      | None => None
      end
  | _ => None
  end.

(** ** Schedules of join-room handlers

    The message listener calls the handler and does not await it: a
    join-room handler runs up to [await Room.findOne] ([joinGate]) and goes
    on when the store answers ([joinResume]); join-room messages that arrive
    in between are handled up to the same point. A schedule is a list of
    such steps over a state and the list of suspended handlers; it contains
    no leave, so no room is removed while a handler is suspended. *)

Record PendingJoin : Type := mkPendingJoin {
  pj_ws : nat;
  pj_roomId : string;
  pj_participantId : option string;
  pj_participantName : string;
  pj_role : string
}.

Inductive SchedStep : Type :=
| JoinArrives (ws : nat) (data : JObject)   (* a join-room message is received *)
| FindOneAnswers (k : nat).                 (* the store answers the k-th suspended handler *)

Definition sched (now : Z) (s : SchedStep) (cfg : State * list PendingJoin)
    : (State * list PendingJoin) * Out :=
  let '(st, pending) := cfg in
  match s with
  | JoinArrives ws data =>
      match joinRequest (Message ws data) st with
      | Some (w, r, pid, name, role) =>
          match joinGate w r st with
          | (st0, Some out) => ((st0, pending), out)
          | (st0, None) => ((st0, pending ++ [mkPendingJoin w r pid name role]), [])
          end
      | None => (cfg, [])
      end
  | FindOneAnswers k =>
      match pending !! k with
      | Some p =>
          let '(st', out) :=
            joinResume now (pj_ws p) (pj_roomId p) (pj_participantId p)
              (pj_participantName p) (pj_role p) st in
          ((st', delete k pending), out)
      | None => (cfg, [])
      end
  end.

Fixpoint schedRun (ss : list (Z * SchedStep)) (cfg : State * list PendingJoin)
    : (State * list PendingJoin) * Out :=
  match ss with
  | [] => (cfg, [])
  | (now, s) :: ss' =>
      let '(cfg1, o1) := sched now s cfg in
      let '(cfg2, o2) := schedRun ss' cfg1 in
      (cfg2, o1 ++ o2)
  end.

(** ** Predicates used in the statements *)

Definition roomsBounded (st : State) : Prop :=
  ∀ r m, rooms st !! r = Some m → (length m ≤ 2)%nat.

(* Addresses in use lie below the next address to be handed out. *)
Definition connsBelowNext (st : State) : Prop :=
  ∀ ws c, conns st !! ws = Some c → (ws < nextConn st)%nat.

Definition occupants (r : string) (st : State) : nat :=
  length (roomOf r (rooms st)).

(* No event of the trace ends the process. *)
Definition survives (tr : list (Z * Event)) : bool :=
  forallb (λ te, negb (fatal te.2)) tr.


(* The two ways the leave protocol is entered for connection ws. *)
Definition isLeaveEvent (ws : nat) (e : Event) : Prop :=
  e = Close ws
  ∨ ∃ data, e = Message ws data ∧ obj_get "type" data = Some (JStr "leave-room").

(* The leave protocol has run for room connection ws. *)
Definition leftForGood (ws : nat) (st : State) : Prop :=
  ∃ c, conns st !! ws = Some c
       ∧ ws_serviceType c = Some SvcRoom ∧ ws_leftHandled c = true.

(* The event is a join-room message with a truthy roomId, participantId or
   participantName that is not a string. *)
Definition unmodelledJoin (e : Event) (st : State) : Prop :=
  ∃ ws data c,
    e = Message ws data ∧ conns st !! ws = Some c
    ∧ ws_serviceType c = Some SvcRoom
    ∧ obj_get "type" data = Some (JStr "join-room")
    ∧ joinArgs c data = None.

(* The event is a join-room for room r under a participant id that the
   transient room already has an entry for. *)
Definition sameIdRejoin (e : Event) (r : string) (st : State) : Prop :=
  ∃ ws pid name role,
    joinRequest e st = Some (ws, r, pid, name, role)
    ∧ is_Some (pmap_get pid (roomOf r (rooms st))).



(* What saveChatMessage stores for a chat-message of connection c, if the
   values cast to the chat schema. *)
Definition storedChat (now : Z) (c : Conn) (data : JObject) : option ChatMessage :=
  chatRecord now (chatSender c data) (chatSenderName c data) (chatText data).



(** ** Sample sessions *)

Definition roomHandshake (r p n : string) (role : option string) : Handshake :=
  mkHandshake (Some r) None (Some p) (Some n) role.

Definition deviceHandshake (d : string) : Handshake :=
  mkHandshake None (Some d) None None None.

Definition joinRoomMsg : JObject := [("type", JStr "join-room")].

Definition leaveRoomMsg : JObject := [("type", JStr "leave-room")].




(* The state a freshly started process with empty stores is in after tr. *)
Definition stateAfter (tr : list (Z * Event)) : State :=
  (run tr (initState ∅ ∅)).1.


(* Alice connects to R1 (connection 0) and joins: she is its sole occupant. *)
Definition aliceSeated : list (Z * Event) :=
  [(1000, Connection (roomHandshake "R1" "A" "Alice" None));
   (2000, Message 0%nat joinRoomMsg)].


(* Alice (connection 0, user) and Bob (connection 1, admin) connect to R1. *)
Definition twoConnected : list (Z * Event) :=
  [(1000, Connection (roomHandshake "R1" "A" "Alice" None));
   (1001, Connection (roomHandshake "R1" "B" "Bob" (Some "admin")))].

(* Alice joins at 2000 and Bob at 3000: the call starts at 3000. *)
Definition twoSeated : list (Z * Event) :=
  twoConnected ++ [(2000, Message 0%nat joinRoomMsg); (3000, Message 1%nat joinRoomMsg)].


(* Alice and Bob were seated (the call started at 3000); Alice has left. *)
Definition bobAlone : list (Z * Event) :=
  twoSeated ++ [(3500, Close 0%nat)].



(* Alice joins R1 and leaves; Bob and Carol join (the call starts with Alice,
   Bob and Carol recorded); Bob leaves, so that Carol (connection 2) is the
   sole occupant; then Alice and Bob connect again (connections 3 and 4). *)
Definition carolAlone : list (Z * Event) :=
  [(1000, Connection (roomHandshake "R1" "A" "Alice" None));
   (1100, Message 0%nat joinRoomMsg);
   (1200, Close 0%nat);
   (1300, Connection (roomHandshake "R1" "B" "Bob" None));
   (1400, Message 1%nat joinRoomMsg);
   (1500, Connection (roomHandshake "R1" "C" "Carol" None));
   (1600, Message 2%nat joinRoomMsg);
   (1700, Close 1%nat);
   (1800, Connection (roomHandshake "R1" "A" "Alice" None));
   (1900, Connection (roomHandshake "R1" "B" "Bob" None))].

(* Both join-room messages arrive before the store has answered the first
   handler; then the store answers the two handlers in turn. *)
Definition racingJoins : list (Z * SchedStep) :=
  [(2000, JoinArrives 3%nat joinRoomMsg);
   (2001, JoinArrives 4%nat joinRoomMsg);
   (2010, FindOneAnswers 0%nat);
   (2011, FindOneAnswers 0%nat)].

(* Devices D1 (connection 0) and D2 (connection 1) connect. *)
Definition twoDevices : list (Z * Event) :=
  [(1000, Connection (deviceHandshake "D1"));
   (1001, Connection (deviceHandshake "D2"))].

(* A call-initiate from D2 to D1 whose payload names another sender. *)
Definition spoofedCall : JObject :=
  [("type", JStr "call-initiate"); ("targetDeviceId", JStr "D1");
   ("fromDeviceId", JStr "D9"); ("callerName", JStr "Ward 3")].

Definition plainCall : JObject :=
  [("type", JStr "call-initiate"); ("targetDeviceId", JStr "D1");
   ("callerName", JStr "Ward 3")].

(* The register message by which a connection takes device id D1. *)
Definition registerD1 : JObject := [("type", JStr "register"); ("deviceId", JStr "D1")].

(* A device store that knows D1. *)
Definition d1Db : gmap string Device := {[ "D1" := mkDevice offline 0 ]}.

(* D1 (connection 0) and D2 (connection 1) are connected. *)
Definition stateBeforeRebind : State :=
  (run twoDevices (initState ∅ d1Db)).1.





(* Alice and Bob are connected and Alice is seated. *)
Definition aliceWaits : list (Z * Event) :=
  twoConnected ++ [(2000, Message 0%nat joinRoomMsg)].

(** ** The outcome of a join that is seated *)

(* The state a seated join leaves before the second occupant's save. *)
Definition seated (ws : nat) (r : string) (pid : option string)
    (db1 : gmap string DbRoom) (st : State) : State :=
  mkState (conns st) (nextConn st)
    (<[r := pmap_set pid ws (roomOf r (rooms st))]> (rooms st))
    (connectedDevices st) db1 (deviceDb st).

(* What the second occupant's branch sends. *)
Definition notifyReady (ws : nat) (r : string) (pid : option string)
    (name role : string) (oid : option string) (ows : nat) (d : DbRoom)
    (st : State) : Out :=
  [(ws, msgReady r role oid (connName st ows) (connRole st ows));
   (ws, msgChatHistory r (chatMessages d));
   (ows, msgParticipantJoined pid name role)].

(** ** Two routes of src/routes/Room.js that write the status *)

(* Each is the body of the route: it returns the status code of the response
   and the store it leaves. *)

Definition setCallStartTime (now : Z) (r : DbRoom) : DbRoom :=
  mkDbRoom (db_roomId r) (sessionId r) (creator r) (participants r)
    (chatMessages r) (status r) (Some now) (callEndTime r) (callDuration r)
    (metadata r) (updatedAt r).

(* PATCH /:roomId/start-call *)
Definition httpStartCall (now : Z) (roomId : string) (db : gmap string DbRoom)
    : Z * gmap string DbRoom :=
  match db !! roomId with
  | None => (404, db)
  | Some room =>
      if negb (isWaiting room) then (400, db)
      else
        let room' := setUpdatedAt now (setStatus active (setCallStartTime now room)) in
        if validRoom room' then (200, <[roomId := room']> db) else (400, db)
  end.


(* The state once the store has been written by a route. *)
Definition afterRoute (route : gmap string DbRoom → Z * gmap string DbRoom)
    (st : State) : State :=
  setRoomDb (λ db, (route db).2) st.

(* The process is started again over the store of a call in progress (that
   of twoSeated); a connection whose role is 'guest' sends join-room, which
   the store refuses: the transient room is left with an entry and no
   occupant. *)
Definition guestRefused : State :=
  (run [(5000, Connection (roomHandshake "R1" "G" "Gail" (Some "guest")));
        (5100, Message 0%nat joinRoomMsg)]
     (initState (roomDb (stateAfter twoSeated)) ∅)).1.

(** ** The claims that fail, as the specification words them *)

(* C2 as the specification words it, for one change of state: 'waiting'
   becomes 'active' exactly when the transient room reaches 2 occupants,
   'active' becomes 'ended' exactly when it returns to 0, and the duration
   stored on ending is never negative. *)
Definition transitionsAsStated (r : string) (st st' : State) : Prop :=
  ∀ d d', roomDb st !! r = Some d → roomDb st' !! r = Some d' →
    (status d = waiting →
       (status d' = active ↔ (occupants r st < 2)%nat ∧ occupants r st' = 2%nat))
    ∧ (status d = active →
         (status d' = ended ↔ (1 ≤ occupants r st)%nat ∧ occupants r st' = 0%nat))
    ∧ (status d = active → status d' = ended → 0 ≤ callDuration d').




(** * Properties *)

#[local] Arguments Nat.leb : simpl never.
#[local] Arguments Nat.eqb : simpl never.

(** ** Basic facts about the participant Map *)

Lemma pmap_set_length k c (m : PMap) :
  (length (pmap_set k c m) ≤ S (length m))%nat.
Proof.
  induction m as [|[k' c'] m IH]; simpl; [lia|].
  destruct (keyEq k' k); simpl; lia.
Qed.


Lemma pmap_delete_length k (m : PMap) :
  (length (pmap_delete k m) ≤ length m)%nat.
Proof. unfold pmap_delete. apply length_filter. Qed.

Lemma pmap_set_nonempty k c (m : PMap) : pmap_set k c m ≠ [].
Proof. destruct m as [|[k' c'] m]; simpl; [done|]. by destruct (keyEq k' k). Qed.

Lemma pmap_set_fresh k c (m : PMap) :
  pmap_get k m = None → pmap_set k c m = m ++ [(k, c)].
Proof.
  induction m as [|[k' c'] m IH]; simpl; [done|].
  destruct (keyEq k' k); [done|]. intros H. by rewrite IH.
Qed.

Lemma pmap_get_delete k (m : PMap) : pmap_get k (pmap_delete k m) = None.
Proof.
  unfold pmap_delete. induction m as [|[k' c'] m IH]; simpl; [done|].
  rewrite filter_cons. destruct (decide ((k', c').1 ≠ k)) as [Hne|]; [|done].
  simpl in *. unfold keyEq. by rewrite bool_decide_eq_false_2.
Qed.

Lemma roomOf_insert r m (rs : gmap string PMap) : roomOf r (<[r := m]> rs) = m.
Proof. unfold roomOf. by rewrite lookup_insert_eq. Qed.

(** ** The join handler, case by case *)

Lemma roomOf_ensureRoom r st : roomOf r (rooms (ensureRoom r st)) = roomOf r (rooms st).
Proof.
  unfold ensureRoom, roomOf. destruct (rooms st !! r) eqn:E; simpl.
  - by rewrite E.
  - by rewrite lookup_insert_eq.
Qed.

Lemma ensureRoom_frame r st :
  conns (ensureRoom r st) = conns st ∧ nextConn (ensureRoom r st) = nextConn st
  ∧ connectedDevices (ensureRoom r st) = connectedDevices st
  ∧ roomDb (ensureRoom r st) = roomDb st ∧ deviceDb (ensureRoom r st) = deviceDb st.
Proof. unfold ensureRoom. by destruct (rooms st !! r). Qed.

Lemma insert_ensureRoom r m st :
  <[r := m]> (rooms (ensureRoom r st)) = <[r := m]> (rooms st).
Proof.
  unfold ensureRoom. destruct (rooms st !! r); simpl; [done|].
  by rewrite insert_insert_eq.
Qed.

Lemma ensureRoom_present r m st : rooms st !! r = Some m → ensureRoom r st = st.
Proof. intros H. unfold ensureRoom. by rewrite H. Qed.

Lemma join_full now ws r pid name role st m :
  rooms st !! r = Some m → (2 ≤ length m)%nat →
  handleJoinRoom now ws r pid name role st = (st, [(ws, msgFull r)]).
Proof.
  intros Hm Hlen. unfold handleJoinRoom, joinGate.
  rewrite roomOf_ensureRoom, (ensureRoom_present r m st Hm).
  unfold roomOf. rewrite Hm. cbn [default from_option id].
  destruct (2 <=? length m)%nat eqn:E; [done|].
  apply Nat.leb_gt in E. lia.
Qed.

Lemma join_refused now ws r pid name role st :
  (length (roomOf r (rooms st)) < 2)%nat →
  loadOrCreate now r pid name role (roomDb st) = None →
  handleJoinRoom now ws r pid name role st = (ensureRoom r st, []).
Proof.
  intros Hlen Hl. unfold handleJoinRoom, joinGate. rewrite roomOf_ensureRoom.
  destruct (2 <=? length (roomOf r (rooms st)))%nat eqn:E.
  { apply Nat.leb_le in E. lia. }
  unfold joinResume. destruct (ensureRoom_frame r st) as (_ & _ & _ & -> & _).
  by rewrite Hl.
Qed.

Lemma join_seated now ws r pid name role st d db1 :
  (length (roomOf r (rooms st)) < 2)%nat →
  loadOrCreate now r pid name role (roomDb st) = Some (d, db1) →
  handleJoinRoom now ws r pid name role st
  = match roomOf r (rooms st) with
    | [] =>
        (seated ws r pid db1 st,
         [(ws, msgWaiting r role); (ws, msgChatHistory r (chatMessages d))])
    | (oid, ows) :: _ =>
        if isWaiting d then
          if validRoom (startCall now d)
          then (setRoomDb (insert r (startCall now d)) (seated ws r pid db1 st),
                notifyReady ws r pid name role oid ows (startCall now d) st)
          else (seated ws r pid db1 st, [])
        else (seated ws r pid db1 st,
              notifyReady ws r pid name role oid ows d st)
    end.
Proof.
  intros Hlen Hl. unfold handleJoinRoom, joinGate. rewrite roomOf_ensureRoom.
  destruct (2 <=? length (roomOf r (rooms st)))%nat eqn:E.
  { apply Nat.leb_le in E. lia. }
  unfold joinResume, notifyReady, connName, connRole.
  destruct (ensureRoom_frame r st) as (Hc & Hn & Hdev & Hdb & Hddb).
  rewrite Hdb, Hl, roomOf_ensureRoom, Hc.
  assert (Hst : setRooms (insert r (pmap_set pid ws (roomOf r (rooms st))))
                  (setRoomDb (λ _, db1) (ensureRoom r st))
                = seated ws r pid db1 st).
  { unfold seated, setRooms, setRoomDb. cbn.
    by rewrite Hc, Hn, Hdev, Hddb, insert_ensureRoom. }
  rewrite Hst. destruct (roomOf r (rooms st)) as [|[oid ows] rest]; [done|].
  destruct (isWaiting d); [|done]. by destruct (validRoom (startCall now d)).
Qed.

Lemma loadOrCreate_lookup now r pid name role db d db1 :
  loadOrCreate now r pid name role db = Some (d, db1) →
  db1 !! r = Some d ∧ ∀ r', r' ≠ r → db1 !! r' = db !! r'.
Proof.
  unfold loadOrCreate. destruct (db !! r) as [d0|] eqn:E.
  - destruct (hasParticipant pid _) eqn:Hp.
    + intros [= <- <-]. destruct (isEnded d0) eqn:He; [|done].
      unfold resetSession in Hp. simpl in Hp. discriminate.
    + destruct (validRoom _); [|done]. intros [= <- <-].
      split; [by rewrite lookup_insert_eq|].
      intros r' Hne. by rewrite lookup_insert_ne.
  - destruct (validRoom _); [|done]. intros [= <- <-].
    split; [by rewrite lookup_insert_eq|].
    intros r' Hne. by rewrite lookup_insert_ne.
Qed.

(* The three outcomes of a join: refused as full, stopped by a refused save,
   seated. *)
Lemma join_cases now ws r pid name role st :
  let res := handleJoinRoom now ws r pid name role st in
  (∃ m, rooms st !! r = Some m ∧ (2 ≤ length m)%nat ∧ res = (st, [(ws, msgFull r)]))
  ∨ ((length (roomOf r (rooms st)) < 2)%nat
     ∧ loadOrCreate now r pid name role (roomDb st) = None
     ∧ res = (ensureRoom r st, []))
  ∨ ((length (roomOf r (rooms st)) < 2)%nat
     ∧ ∃ d db1 d' out,
         loadOrCreate now r pid name role (roomDb st) = Some (d, db1)
         ∧ res = (setRoomDb (λ _, <[r := d']> db1) (seated ws r pid db1 st), out)
         ∧ (d' = d ∨ (roomOf r (rooms st) ≠ [] ∧ isWaiting d = true
                      ∧ d' = startCall now d))).
Proof.
  cbn zeta.
  destruct (decide (length (roomOf r (rooms st)) < 2)%nat) as [Hlt|Hge].
  - destruct (loadOrCreate now r pid name role (roomDb st)) as [[d db1]|] eqn:El.
    + right; right. split; [done|].
      rewrite (join_seated now ws r pid name role st d db1 Hlt El).
      destruct (loadOrCreate_lookup _ _ _ _ _ _ _ _ El) as [Hd1 _].
      assert (Hsame : setRoomDb (λ _, <[r := d]> db1) (seated ws r pid db1 st)
                      = seated ws r pid db1 st).
      { unfold setRoomDb, seated.
        cbn [conns nextConn rooms connectedDevices roomDb deviceDb].
        by rewrite (insert_id _ _ _ Hd1). }
      destruct (roomOf r (rooms st)) as [|[oid ows] rest] eqn:Er.
      * exists d, db1, d. eexists. split; [done|]. split; [by rewrite Hsame|by left].
      * destruct (isWaiting d) eqn:Ew.
        -- destruct (validRoom (startCall now d)).
           ++ exists d, db1, (startCall now d). eexists. split; [done|].
              split; [|by right]. done.
           ++ exists d, db1, d. eexists. split; [done|].
              split; [by rewrite Hsame|by left].
        -- exists d, db1, d. eexists. split; [done|].
           split; [by rewrite Hsame|by left].
    + right; left. split; [done|]. split; [done|]. by apply join_refused.
  - left. unfold roomOf in Hge.
    destruct (rooms st !! r) as [m|] eqn:Em; simpl in Hge; [|lia].
    exists m. split; [done|]. split; [lia|]. apply (join_full _ _ _ _ _ _ _ m); [done|lia].
Qed.

Lemma join_conns now ws r pid name role st :
  conns (handleJoinRoom now ws r pid name role st).1 = conns st
  ∧ nextConn (handleJoinRoom now ws r pid name role st).1 = nextConn st
  ∧ connectedDevices (handleJoinRoom now ws r pid name role st).1
    = connectedDevices st
  ∧ deviceDb (handleJoinRoom now ws r pid name role st).1 = deviceDb st.
Proof.
  destruct (join_cases now ws r pid name role st)
    as [(m & _ & _ & ->)|[(_ & _ & ->)|(_ & d & db1 & d' & out & _ & -> & _)]];
    [done| |done].
  cbn [fst]. destruct (ensureRoom_frame r st) as (-> & -> & -> & _ & ->). done.
Qed.

Lemma join_rooms now ws r pid name role st :
  let st' := (handleJoinRoom now ws r pid name role st).1 in
  rooms st' = rooms st
  ∨ rooms st' = <[r := []]> (rooms st) ∧ rooms st !! r = None
  ∨ (length (roomOf r (rooms st)) < 2)%nat
    ∧ rooms st' = <[r := pmap_set pid ws (roomOf r (rooms st))]> (rooms st).
Proof.
  cbn zeta.
  destruct (join_cases now ws r pid name role st)
    as [(m & _ & _ & ->)|[(_ & _ & ->)|(Hlt & d & db1 & d' & out & _ & -> & _)]].
  - by left.
  - cbn [fst]. unfold ensureRoom. destruct (rooms st !! r) eqn:E; [by left|].
    right; left. done.
  - right; right. done.
Qed.

(** ** The capacity of a room, when handlers run one at a time *)

Lemma join_bounded now ws r pid name role st :
  roomsBounded st → roomsBounded (handleJoinRoom now ws r pid name role st).1.
Proof.
  intros Hb r' m'.
  destruct (join_rooms now ws r pid name role st) as [->|[[-> _]|[Hlt ->]]].
  - apply Hb.
  - destruct (decide (r = r')) as [->|Hne].
    + rewrite lookup_insert_eq. intros [= <-]. simpl. lia.
    + rewrite lookup_insert_ne by done. apply Hb.
  - destruct (decide (r = r')) as [->|Hne].
    + rewrite lookup_insert_eq. intros [= <-].
      pose proof (pmap_set_length pid ws (roomOf r' (rooms st))). lia.
    + rewrite lookup_insert_ne by done. apply Hb.
Qed.

(** ** The leave protocol *)

Lemma leave_frame now ws st :
  nextConn (handleParticipantLeave now ws st).1 = nextConn st
  ∧ connectedDevices (handleParticipantLeave now ws st).1 = connectedDevices st
  ∧ deviceDb (handleParticipantLeave now ws st).1 = deviceDb st.
Proof.
  unfold handleParticipantLeave.
  destruct (conns st !! ws) as [c|]; [|done].
  destruct (ws_leftHandled c); [done|].
  destruct (ws_roomId c) as [r|]; [|done].
  destruct (negb (truthyStr (Some r)) || negb (truthyStr (ws_participantId c)));
    [done|].
  cbn [rooms setConns]. destruct (rooms st !! r) as [room|]; [|done].
  cbn [roomDb setRooms setConns].
  destruct (roomDb st !! r); [destruct (validRoom _); [|done]|];
    by destruct (length (pmap_delete (ws_participantId c) room) =? 0)%nat.
Qed.

Lemma conns_leave now ws st c :
  conns st !! ws = Some c →
  conns (handleParticipantLeave now ws st).1
  = if ws_leftHandled c then conns st else <[ws := markLeftHandled c]> (conns st).
Proof.
  intros Hc. unfold handleParticipantLeave. rewrite Hc.
  destruct (ws_leftHandled c); [done|].
  destruct (ws_roomId c) as [r|]; [|done].
  destruct (negb (truthyStr (Some r)) || negb (truthyStr (ws_participantId c)));
    [done|].
  cbn [rooms setConns]. destruct (rooms st !! r) as [room|]; [|done].
  cbn [roomDb setRooms setConns].
  destruct (roomDb st !! r); [destruct (validRoom _); [|done]|];
    by destruct (length (pmap_delete (ws_participantId c) room) =? 0)%nat.
Qed.

Lemma leave_handled now ws st c :
  conns st !! ws = Some c → ws_leftHandled c = true →
  handleParticipantLeave now ws st = (st, []).
Proof. intros Hc Hl. unfold handleParticipantLeave. by rewrite Hc, Hl. Qed.

(** ** Handlers that leave the registries alone *)

Lemma saveChatMessage_frame now r sender name msg st :
  conns (saveChatMessage now r sender name msg st) = conns st
  ∧ nextConn (saveChatMessage now r sender name msg st) = nextConn st
  ∧ rooms (saveChatMessage now r sender name msg st) = rooms st
  ∧ connectedDevices (saveChatMessage now r sender name msg st) = connectedDevices st
  ∧ deviceDb (saveChatMessage now r sender name msg st) = deviceDb st.
Proof.
  unfold saveChatMessage. destruct (roomDb st !! r); [|done].
  destruct (chatRecord now sender name msg); [|done].
  by destruct (validRoom _).
Qed.

Lemma updateDeviceStatus_frame now d s st :
  conns (updateDeviceStatus now d s st) = conns st
  ∧ connectedDevices (updateDeviceStatus now d s st) = connectedDevices st.
Proof.
  unfold updateDeviceStatus. destruct d as [d|]; [|done].
  by destruct (deviceDb st !! d).
Qed.

Lemma updateDeviceStatus_rooms now d s st :
  nextConn (updateDeviceStatus now d s st) = nextConn st
  ∧ rooms (updateDeviceStatus now d s st) = rooms st
  ∧ roomDb (updateDeviceStatus now d s st) = roomDb st.
Proof.
  unfold updateDeviceStatus. destruct d as [d|]; [|done].
  by destruct (deviceDb st !! d).
Qed.

Lemma handleAdminMediaControl_state ws c data st :
  (handleAdminMediaControl ws c data st).1 = st.
Proof.
  unfold handleAdminMediaControl.
  repeat (match goal with |- context [match ?x with _ => _ end] => destruct x end;
          try done).
Qed.

(** ** Runs *)

Lemma run_cons now e tr st :
  fatal e = false →
  run ((now, e) :: tr) st
  = ((run tr (step now e st).1).1, (step now e st).2 ++ (run tr (step now e st).1).2).
Proof.
  intros Hf. cbn [run]. rewrite Hf.
  destruct (step now e st) as [st1 o1]. cbn [fst snd].
  by destruct (run tr st1) as [st2 o2].
Qed.

Lemma run_fatal now e tr st : fatal e = true → run ((now, e) :: tr) st = (st, []).
Proof. intros Hf. cbn [run]. by rewrite Hf. Qed.

Lemma run_invariant (P : State → Prop) :
  (∀ now e st, P st → P (step now e st).1) →
  ∀ tr st, P st → P (run tr st).1.
Proof.
  intros Hstep tr. induction tr as [|[now e] tr IH]; intros st HP; [done|].
  destruct (fatal e) eqn:Hf.
  - by rewrite run_fatal.
  - rewrite run_cons by done. simpl. apply IH, Hstep, HP.
Qed.

Lemma reachable_invariant (P : State → Prop) :
  (∀ db ddb, P (initState db ddb)) →
  (∀ now e st, P st → P (step now e st).1) →
  ∀ st, reachable st → P st.
Proof.
  intros Hinit Hstep st (db & ddb & tr & ->).
  by apply run_invariant.
Qed.

Lemma reachable_stateAfter tr : reachable (stateAfter tr).
Proof. by exists ∅, ∅, tr. Qed.

(* A run that no event ends continues into what follows it. *)
Lemma run_app tr1 tr2 st :
  survives tr1 = true →
  run (tr1 ++ tr2) st
  = ((run tr2 (run tr1 st).1).1, (run tr1 st).2 ++ (run tr2 (run tr1 st).1).2).
Proof.
  revert st. induction tr1 as [|[now e] tr1 IH]; intros st Hs.
  - cbn [app run fst snd]. by destruct (run tr2 st).
  - cbn [survives forallb] in Hs. apply andb_prop in Hs as [Hf Hs].
    apply negb_true_iff in Hf. cbn [snd] in Hf.
    rewrite <- app_comm_cons, !run_cons, IH by done.
    cbn [fst snd]. by rewrite app_assoc.
Qed.

(* A run that an event ends ignores what follows it. *)
Lemma run_stopped tr1 tr2 st :
  survives tr1 = false → run (tr1 ++ tr2) st = run tr1 st.
Proof.
  revert st. induction tr1 as [|[now e] tr1 IH]; intros st Hs; [done|].
  cbn [survives forallb snd] in Hs. rewrite <- app_comm_cons.
  destruct (fatal e) eqn:Hf.
  - by rewrite !run_fatal.
  - rewrite !run_cons by done. simpl in Hs. by rewrite IH.
Qed.

Lemma onMessage_room now ws c data st :
  conns st !! ws = Some c → ws_serviceType c = Some SvcRoom →
  onMessage now ws data st = handleRoomMessage now ws c data st.
Proof. intros Hc Hs. unfold onMessage. by rewrite Hc, Hs. Qed.

Lemma step_leave now ws e st c :
  conns st !! ws = Some c → ws_serviceType c = Some SvcRoom →
  isLeaveEvent ws e →
  ∃ st0 c0,
    step now e st = handleParticipantLeave now ws st0
    ∧ conns st0 !! ws = Some c0
    ∧ ws_leftHandled c0 = ws_leftHandled c
    ∧ ws_serviceType c0 = Some SvcRoom
    ∧ rooms st0 = rooms st ∧ roomDb st0 = roomDb st.
Proof.
  intros Hc Hs [->|(data & -> & Ht)].
  - exists (setConns (insert ws (setReadyState CLOSED c)) st), (setReadyState CLOSED c).
    cbn [step]. unfold onClose. rewrite Hc, Hs.
    repeat split; try done. simpl. by rewrite lookup_insert_eq.
  - exists st, c. cbn [step]. rewrite (onMessage_room now ws c data st Hc Hs).
    unfold handleRoomMessage. rewrite Ht. by simpl.
Qed.

(** ** The leftHandled flag is never cleared *)

(* What one event does to the heap of connections: a new cell at the next
   address, nothing, or an update of one existing cell that keeps its
   service type and does not clear its leftHandled flag. *)
Lemma step_conns now e st :
  let st' := (step now e st).1 in
  (∃ c, conns st' = <[nextConn st := c]> (conns st)
        ∧ nextConn st' = S (nextConn st))
  ∨ (nextConn st' = nextConn st
     ∧ (conns st' = conns st
        ∨ ∃ w c0 c1,
            conns st !! w = Some c0 ∧ conns st' = <[w := c1]> (conns st)
            ∧ ws_serviceType c1 = ws_serviceType c0
            ∧ (ws_leftHandled c0 = true → ws_leftHandled c1 = true))).
Proof.
  cbn zeta. destruct e as [h|ws data|ws|ws]; cbn [step].
  - unfold onConnection. destruct (classify h) as [c|]; [|by right; split; [|left]].
    left. exists c. by destruct (ws_serviceType c) as [[|]|].
  - right. unfold onMessage.
    destruct (conns st !! ws) as [c|] eqn:Hc; [|by split; [|left]].
    destruct (ws_serviceType c) as [[|]|] eqn:Hs; [| |by split; [|left]].
    + unfold handleRoomMessage.
      destruct (obj_get "type" data) as [[| | |type| | | |]|];
        try by (split; [|left]).
      destruct (String.eqb type "join-room").
      { destruct (joinArgs c data) as [[[[r0|] pid] name]|];
          try by (split; [|left]).
        destruct (join_conns now ws r0 pid name (ws_role c) st) as (H1 & H2 & _).
        split; [done|by left]. }
      destruct (String.eqb type "leave-room").
      { split; [apply leave_frame|].
        rewrite (conns_leave now ws st c Hc).
        destruct (ws_leftHandled c) eqn:El; [by left|].
        right. exists ws, c, (markLeftHandled c). by rewrite El. }
      destruct (String.eqb type "chat-message").
      { destruct (ws_roomId c) as [r0|]; [|by split; [|left]]. cbn [fst].
        destruct (saveChatMessage_frame now r0 (chatSender c data)
                    (chatSenderName c data) (chatText data) st) as (-> & -> & _).
        by split; [|left]. }
      destruct (_ || _).
      { by destruct (ws_roomId c); (split; [|left]). }
      destruct (String.eqb type "admin-control-media"); [|by split; [|left]].
      rewrite handleAdminMediaControl_state. by split; [|left].
    + unfold handleDeviceMessage.
      destruct (devicePayload data) as [payload|]; [|by split; [|left]].
      destruct (obj_get "type" data) as [[| | |type| | | |]|];
        try by (split; [|left]).
      destruct (String.eqb type "register").
      { cbn [fst]. rewrite (proj1 (updateDeviceStatus_rooms _ _ _ _)).
        rewrite (proj1 (updateDeviceStatus_frame _ _ _ _)). cbn.
        split; [done|]. right.
        exists ws, c, (setDeviceId (deviceKey (obj_get "deviceId" payload)) c).
        by rewrite Hs. }
      destruct (isRelayType type); [|by split; [|left]].
      destruct (strField "targetDeviceId" data) as [target|]; [|by split; [|left]].
      destruct (connectedDevices st !! Some target) as [t|]; [|by split; [|left]].
      by destruct (connOpen st t); (split; [|left]).
  - right. unfold onClose.
    destruct (conns st !! ws) as [c|] eqn:Hc; [|by split; [|left]].
    set (st1 := setConns (insert ws (setReadyState CLOSED c)) st).
    assert (Hc1 : conns st1 !! ws = Some (setReadyState CLOSED c)).
    { subst st1. cbn. by rewrite lookup_insert_eq. }
    destruct (ws_serviceType c) as [[|]|] eqn:Hs.
    + split; [by rewrite (proj1 (leave_frame _ _ _))|].
      rewrite (conns_leave now ws st1 _ Hc1). cbn [ws_leftHandled setReadyState].
      right. destruct (ws_leftHandled c) eqn:El.
      * exists ws, c, (setReadyState CLOSED c). by rewrite El.
      * exists ws, c, (markLeftHandled (setReadyState CLOSED c)).
        subst st1. cbn. by rewrite insert_insert_eq, El.
    + cbn [fst]. rewrite (proj1 (updateDeviceStatus_rooms _ _ _ _)).
      rewrite (proj1 (updateDeviceStatus_frame _ _ _ _)).
      split; [done|]. right. exists ws, c, (setReadyState CLOSED c). by rewrite Hs.
    + split; [done|]. right. exists ws, c, (setReadyState CLOSED c). by rewrite Hs.
  - right. destruct (conns st !! ws) as [c|] eqn:Hc; [|by split; [|left]].
    destruct (isOpen c); [|by split; [|left]].
    split; [done|]. right. by exists ws, c, (setReadyState CLOSING c).
Qed.

Lemma step_connsBelowNext now e st :
  connsBelowNext st → connsBelowNext (step now e st).1.
Proof.
  intros Hb ws c.
  destruct (step_conns now e st)
    as [(h & -> & ->)|[-> [->|(w & c0 & c1 & Hw & -> & _)]]].
  - destruct (decide (nextConn st = ws)) as [<-|Hne]; [lia|].
    rewrite lookup_insert_ne by done. intros H. specialize (Hb _ _ H). lia.
  - apply Hb.
  - destruct (decide (w = ws)) as [->|Hne]; [intros _; by apply (Hb ws c0)|].
    rewrite lookup_insert_ne by done. apply Hb.
Qed.

Lemma step_leftForGood now e st ws :
  connsBelowNext st → leftForGood ws st → leftForGood ws (step now e st).1.
Proof.
  intros Hb (c & Hc & Hs & Hl). unfold leftForGood.
  destruct (step_conns now e st)
    as [(h & -> & _)|[_ [->|(w & c0 & c1 & Hw & -> & Hs1 & Hl1)]]].
  - specialize (Hb _ _ Hc). rewrite lookup_insert_ne by lia. by exists c.
  - by exists c.
  - destruct (decide (w = ws)) as [->|Hne].
    + rewrite lookup_insert_eq. exists c1. rewrite Hc in Hw. injection Hw as <-.
      split; [done|]. split; [congruence|by apply Hl1].
    + rewrite lookup_insert_ne by done. by exists c.
Qed.

Lemma reachable_connsBelowNext st : reachable st → connsBelowNext st.
Proof.
  apply reachable_invariant.
  - intros db ddb ws c. simpl. by rewrite lookup_empty.
  - apply step_connsBelowNext.
Qed.

Lemma run_leftForGood tr st ws :
  connsBelowNext st → leftForGood ws st → leftForGood ws (run tr st).1.
Proof.
  revert st. induction tr as [|[now e] tr IH]; intros st Hb Hl; [done|].
  destruct (fatal e) eqn:Hf; [by rewrite run_fatal|].
  rewrite run_cons by done. cbn [fst]. apply IH.
  - by apply step_connsBelowNext.
  - by apply step_leftForGood.
Qed.

Lemma leave_event_not_fatal ws e : isLeaveEvent ws e → fatal e = false.
Proof. by intros [->|(data & -> & _)]. Qed.

(** ** Admin media control *)





(** ** Device relay *)

Lemma obj_get_set_eq k v (o : JObject) : obj_get k (obj_set k v o) = Some v.
Proof.
  induction o as [|[k' v'] o IH]; simpl.
  - by rewrite String.eqb_refl.
  - destruct (String.eqb k' k) eqn:E; simpl.
    + by rewrite String.eqb_refl.
    + by rewrite E.
Qed.

Lemma obj_get_set_ne k k' v (o : JObject) :
  k ≠ k' → obj_get k' (obj_set k v o) = obj_get k' o.
Proof.
  intros Hne. induction o as [|[k0 v0] o IH]; simpl.
  - destruct (String.eqb k k') eqn:E; [|done].
    apply String.eqb_eq in E. congruence.
  - destruct (String.eqb k0 k) eqn:E; simpl.
    + apply String.eqb_eq in E. subst k0.
      destruct (String.eqb k k') eqn:E'; [|done].
      apply String.eqb_eq in E'. congruence.
    + by rewrite IH.
Qed.

(* In { ...base, ...extra } a key of extra wins over the same key of base. *)
Lemma obj_get_spread k (extra base : JObject) :
  obj_get k (obj_spread base extra)
  = match obj_get k (rev extra) with
    | Some v => Some v
    | None => obj_get k base
    end.
Proof.
  unfold obj_spread. revert base.
  induction extra as [|[k' v'] extra IH] using rev_ind; intros base; [done|].
  rewrite foldl_app, rev_app_distr. simpl.
  destruct (String.eqb k' k) eqn:E.
  - apply String.eqb_eq in E. subst k'. apply obj_get_set_eq.
  - apply String.eqb_neq in E. rewrite obj_get_set_ne by done. apply IH.
Qed.

(* What the target reads as fromDeviceId: the payload's own field when it
   has one, the sender's device id otherwise. *)
Lemma forward_fromDeviceId type from (payload : JObject) :
  obj_get "fromDeviceId" (msgForward type from payload)
  = match obj_get "fromDeviceId" (rev payload) with
    | Some v => Some v
    | None => Some (jopt from)
    end.
Proof. unfold msgForward. by rewrite obj_get_spread. Qed.

Lemma relay_outcome now ws c data st type payload target :
  devicePayload data = Some payload →
  obj_get "type" data = Some (JStr type) →
  isRelayType type = true →
  strField "targetDeviceId" data = Some target →
  handleDeviceMessage now ws c data st
  = (st,
     match connectedDevices st !! Some target with
     | Some targetWs =>
         if connOpen st targetWs
         then [(targetWs, msgForward type (ws_deviceId c) payload)]
         else [(ws, msgError ("Device " +:+ target +:+ " is not connected"))]
     | None => [(ws, msgError ("Device " +:+ target +:+ " is not connected"))]
     end).
Proof.
  intros Hp Ht Hr Htarget. unfold handleDeviceMessage.
  rewrite Hp, Ht, Hr, Htarget.
  destruct (String.eqb type "register") eqn:E.
  { apply String.eqb_eq in E. subst type. discriminate Hr. }
  destruct (connectedDevices st !! Some target) as [t|]; [|done].
  by destruct (connOpen st t).
Qed.

(** C5 — device relay, evaluated on a payload that carries its own
    fromDeviceId. Device D2 (connection 1) sends call-initiate to the
    registered, open device D1 (connection 0) with fromDeviceId 'D9' in the
    payload: the single message D1 receives names 'D9', not the sender 'D2',
    as its fromDeviceId. The same call without that field is forwarded with
    fromDeviceId 'D2'. *)
Theorem C5_forward_payload_overrides_sender :
  step 2000 (Message 1%nat spoofedCall) (stateAfter twoDevices)
  = (stateAfter twoDevices,
     [(0%nat, [("type", JStr "call-initiate"); ("fromDeviceId", JStr "D9");
               ("callerName", JStr "Ward 3")])])
  ∧ step 2000 (Message 1%nat plainCall) (stateAfter twoDevices)
    = (stateAfter twoDevices,
       [(0%nat, [("type", JStr "call-initiate"); ("fromDeviceId", JStr "D2");
                 ("callerName", JStr "Ward 3")])]).
Proof. split; by vm_compute. Qed.


Lemma updateDeviceStatus_status now d s st dev :
  deviceDb st !! d = Some dev →
  deviceDb (updateDeviceStatus now (Some d) s st) !! d = Some (mkDevice s now).
Proof.
  intros Hd. unfold updateDeviceStatus. rewrite Hd. simpl.
  by rewrite lookup_insert_eq.
Qed.

Lemma deviceDb_dom_updateDeviceStatus now d' s st d :
  is_Some (deviceDb st !! d) →
  is_Some (deviceDb (updateDeviceStatus now d' s st) !! d).
Proof.
  intros Hd. unfold updateDeviceStatus. destruct d' as [d'|]; [|done].
  destruct (deviceDb st !! d') eqn:E; [|done]. simpl.
  destruct (decide (d' = d)) as [->|Hne].
  - rewrite lookup_insert_eq. by eexists.
  - by rewrite lookup_insert_ne.
Qed.

(** C10 — close of a superseded device socket. Connection [old] carries
    device id d. Another open device connection [new] sends register for d:
    the registry entry of d now holds [new]. When [old] then closes, its
    close handler deletes the entry of d, which is the binding of [new], and
    sets the stored status of d to 'offline', although [new] is still open
    and still carries device id d: an open registered device connection is
    no longer reachable through the registry. *)
Theorem C10_close_of_superseded_socket now1 now2 old new co cn d data payload st :
  old ≠ new →
  conns st !! old = Some co →
  ws_serviceType co = Some SvcDevice →
  ws_deviceId co = Some d →
  conns st !! new = Some cn →
  ws_serviceType cn = Some SvcDevice →
  isOpen cn = true →
  obj_get "type" data = Some (JStr "register") →
  devicePayload data = Some payload →
  obj_get "deviceId" payload = Some (JStr d) →
  let s1 := (step now1 (Message new data) st).1 in
  let s2 := (step now2 (Close old) s1).1 in
  connectedDevices s1 !! Some d = Some new
  ∧ connectedDevices s2 !! Some d = None
  ∧ (∃ cn', conns s2 !! new = Some cn'
            ∧ isOpen cn' = true ∧ ws_deviceId cn' = Some d)
  ∧ (∀ dev, deviceDb st !! d = Some dev →
       dev_status <$> deviceDb s2 !! d = Some offline).
Proof.
  intros Hne Hco Hso Hdo Hcn Hsn Hopen Ht Hp Hd. cbn zeta.
  assert (E1 : step now1 (Message new data) st
               = (updateDeviceStatus now1 (Some d) online
                    (setDevices (insert (Some d) new)
                       (setConns (insert new (setDeviceId (Some d) cn)) st)),
                  [(new, [("type", JStr "registered")]
                           ++ obj_opt "deviceId" (obj_get "deviceId" payload))])).
  { cbn [step]. unfold onMessage. rewrite Hcn, Hsn.
    unfold handleDeviceMessage. rewrite Hp, Ht. simpl. by rewrite Hd. }
  rewrite E1. cbn [fst].
  set (s1 := updateDeviceStatus now1 (Some d) online _).
  destruct (updateDeviceStatus_frame now1 (Some d) online
              (setDevices (insert (Some d) new)
                 (setConns (insert new (setDeviceId (Some d) cn)) st)))
    as [Hconns1 Hdev1].
  fold s1 in Hconns1, Hdev1.
  cbn [conns connectedDevices setDevices setConns] in Hconns1, Hdev1.
  assert (Hold1 : conns s1 !! old = Some co).
  { rewrite Hconns1. by rewrite lookup_insert_ne. }
  assert (E2 : step now2 (Close old) s1
               = (updateDeviceStatus now2 (Some d) offline
                    (setDevices (delete (Some d))
                       (setConns (insert old (setReadyState CLOSED co)) s1)), [])).
  { cbn [step]. unfold onClose. rewrite Hold1, Hso. by rewrite Hdo. }
  rewrite E2. cbn [fst].
  destruct (updateDeviceStatus_frame now2 (Some d) offline
              (setDevices (delete (Some d))
                 (setConns (insert old (setReadyState CLOSED co)) s1)))
    as [Hconns2 Hdev2].
  rewrite Hconns2, Hdev2. cbn [conns connectedDevices setDevices setConns].
  split; [by rewrite Hdev1, lookup_insert_eq|].
  split; [by rewrite lookup_delete_eq|].
  split.
  - exists (setDeviceId (Some d) cn).
    rewrite lookup_insert_ne by done. rewrite Hconns1, lookup_insert_eq.
    by destruct cn.
  - intros dev Hdev.
    assert (is_Some (deviceDb s1 !! d)) as [dev1 Hdev1'].
    { subst s1. apply deviceDb_dom_updateDeviceStatus. by eexists. }
    erewrite updateDeviceStatus_status; [done|]. simpl. exact Hdev1'.
Qed.

Lemma C10_close_of_superseded_socket_witness :
  let s1 := (step 2000 (Message 1%nat registerD1) stateBeforeRebind).1 in
  let s2 := (step 3000 (Close 0%nat) s1).1 in
  connectedDevices s1 !! Some "D1" = Some 1%nat
  ∧ connectedDevices s2 !! Some "D1" = None
  ∧ (∃ cn', conns s2 !! 1%nat = Some cn'
            ∧ isOpen cn' = true ∧ ws_deviceId cn' = Some "D1")
  ∧ (∀ dev, deviceDb stateBeforeRebind !! "D1" = Some dev →
       dev_status <$> deviceDb s2 !! "D1" = Some offline).
Proof.
  apply (C10_close_of_superseded_socket 2000 3000 0%nat 1%nat
    (mkConn (Some SvcDevice) None None "" "" false (Some "D1") OPEN)
    (mkConn (Some SvcDevice) None None "" "" false (Some "D2") OPEN)
    "D1" registerD1 [("deviceId", JStr "D1")] stateBeforeRebind);
    try (vm_compute; reflexivity).
  discriminate.
Defined.


(** ** Leaving twice *)

(** C6 — the leave protocol is idempotent per connection. Once a room
    connection has entered the leave protocol (by a leave-room message or by
    the close of its socket), its leftHandled flag is set and stays set; a
    later entry for the same connection, by either way and after any events
    in between, sends nothing and leaves the transient registry and the
    persisted rooms as they were. Running the second entry or not gives the
    same registry, the same persisted rooms and the same messages sent. *)
Theorem C6_leave_idempotent st ws c t1 e1 tr t2 e2 :
  reachable st →
  conns st !! ws = Some c →
  ws_serviceType c = Some SvcRoom →
  isLeaveEvent ws e1 →
  isLeaveEvent ws e2 →
  let once := run ((t1, e1) :: tr) st in
  let twice := run ((t1, e1) :: tr ++ [(t2, e2)]) st in
  rooms twice.1 = rooms once.1
  ∧ roomDb twice.1 = roomDb once.1
  ∧ twice.2 = once.2
  ∧ leftForGood ws once.1.
Proof.
  intros Hreach Hc Hs H1 H2. cbn zeta.
  pose proof (reachable_connsBelowNext st Hreach) as Hb.
  pose proof (leave_event_not_fatal ws e1 H1) as Hf1.
  pose proof (leave_event_not_fatal ws e2 H2) as Hf2.
  set (once := run ((t1, e1) :: tr) st).
  assert (Hleft : leftForGood ws once.1).
  { subst once. rewrite run_cons by done. cbn [fst].
    apply run_leftForGood; [by apply step_connsBelowNext|].
    destruct (step_leave t1 ws e1 st c Hc Hs H1)
      as (st0 & c0 & E1 & Hc0 & Hl0 & Hs0 & _ & _).
    unfold leftForGood. rewrite E1, (conns_leave t1 ws st0 c0 Hc0).
    destruct (ws_leftHandled c0) eqn:E; [by exists c0|].
    exists (markLeftHandled c0). by rewrite lookup_insert_eq. }
  rewrite app_comm_cons.
  destruct (survives ((t1, e1) :: tr)) eqn:Hsv.
  - rewrite run_app by done. fold once.
    destruct Hleft as (c1 & Hc1 & Hs1 & Hl1).
    destruct (step_leave t2 ws e2 once.1 c1 Hc1 Hs1 H2)
      as (st2 & c2 & E2 & Hc2 & Hl2 & _ & Hr2 & Hd2).
    rewrite run_cons by done. cbn [run fst snd].
    rewrite E2, (leave_handled t2 ws st2 c2 Hc2) by congruence.
    cbn [fst snd]. rewrite !app_nil_r.
    repeat split; try done. by exists c1.
  - rewrite run_stopped by done. by fold once.
Qed.

Lemma C6_leave_idempotent_witness :
  let once :=
    run ((6000, Message 0%nat leaveRoomMsg) :: [(6200, Message 0%nat joinRoomMsg)])
      (stateAfter twoSeated) in
  let twice :=
    run ((6000, Message 0%nat leaveRoomMsg)
           :: [(6200, Message 0%nat joinRoomMsg)] ++ [(6500, Close 0%nat)])
      (stateAfter twoSeated) in
  rooms twice.1 = rooms once.1
  ∧ roomDb twice.1 = roomDb once.1
  ∧ twice.2 = once.2
  ∧ leftForGood 0%nat once.1.
Proof.
  apply (C6_leave_idempotent (stateAfter twoSeated) 0%nat
    (mkConn (Some SvcRoom) (Some "R1") (Some "A") "Alice" "user" false None OPEN)).
  - apply reachable_stateAfter.
  - vm_compute. reflexivity.
  - reflexivity.
  - right. by exists leaveRoomMsg.
  - by left.
Defined.

(** ** The persisted document a join works on *)

Lemma status_addParticipant now pid name role d :
  status (addParticipant now pid name role d) = status d.
Proof. unfold addParticipant. by destruct (hasParticipant pid (participants d)). Qed.

Lemma validRoom_startCall now d : validRoom (startCall now d) = validRoom d.
Proof. done. Qed.







(** ** Same-id rejoin *)



(** ** Rejoining under a recorded participantId *)






(** ** A join that finds the room 'ended' *)




(** ** Chat messages *)










Lemma saveChatMessage_frame_db now r sender name msg st :
  roomDb (saveChatMessage now r sender name msg st) = roomDb st
  ∨ ∃ d m, roomDb st !! r = Some d ∧ chatRecord now sender name msg = Some m
           ∧ validRoom (pushChatMessage m d) = true
           ∧ roomDb (saveChatMessage now r sender name msg st)
             = <[r := pushChatMessage m d]> (roomDb st).
Proof.
  unfold saveChatMessage. destruct (roomDb st !! r) as [d|] eqn:Hd; [|by left].
  destruct (chatRecord now sender name msg) as [m|] eqn:Hm; [|by left].
  destruct (validRoom (pushChatMessage m d)) eqn:Hv; [|by left].
  right. by exists d, m.
Qed.






(** ** Effect of each event on one room *)

Lemma valid_markLeft now pid ps :
  forallb validParticipant (markLeft now pid ps) = forallb validParticipant ps.
Proof.
  induction ps as [|p ps IH]; [done|]. cbn [markLeft].
  destruct (idMatch (p_participantId p) pid).
  - by destruct (p_leftAt p).
  - cbn. by rewrite IH.
Qed.

Lemma validRoom_leftDoc now pid room' d :
  validRoom (leftDoc now pid room' d) = validRoom d.
Proof.
  unfold leftDoc.
  assert (H : validRoom (removeParticipant now pid d) = validRoom d).
  { unfold validRoom, removeParticipant. cbn. by rewrite valid_markLeft. }
  destruct ((length room' =? 0)%nat && isActive (removeParticipant now pid d));
    [|exact H].
  rewrite <- H. unfold endCall, calculateDuration, setCallEndTime. cbn.
  by destruct (callStartTime d).
Qed.

Lemma loadOrCreate_valid now r pid name role db d0 d db1 :
  db !! r = Some d0 → validRoom d0 = true →
  loadOrCreate now r pid name role db = Some (d, db1) →
  validRoom d = true.
Proof.
  intros Hd Hv. unfold loadOrCreate. rewrite Hd.
  destruct (hasParticipant pid _) eqn:Hp.
  - intros [= <- <-]. destruct (isEnded d0) eqn:He; [|done].
    unfold resetSession in Hp. simpl in Hp. discriminate.
  - intros H. destruct (validRoom (addParticipant _ _ _ _ _)) eqn:Hv2; [|done].
    by injection H as <- <-.
Qed.

Lemma loadOrCreate_status now r pid name role db d0 d db1 :
  db !! r = Some d0 → status d0 ≠ ended →
  loadOrCreate now r pid name role db = Some (d, db1) →
  status d = status d0.
Proof.
  intros Hd Hs. unfold loadOrCreate. rewrite Hd.
  replace (isEnded d0) with false by (unfold isEnded; by destruct (status d0)).
  destruct (hasParticipant pid _); [by intros [= <- <-]|].
  destruct (validRoom _); [|done]. intros [= <- <-].
  apply status_addParticipant.
Qed.

Lemma leave_effect now ws st :
  let st' := (handleParticipantLeave now ws st).1 in
  (rooms st' = rooms st ∧ roomDb st' = roomDb st)
  ∨ ∃ c r0 room,
      conns st !! ws = Some c ∧ ws_roomId c = Some r0
      ∧ rooms st !! r0 = Some room
      ∧ let room' := pmap_delete (ws_participantId c) room in
        let left := if (length room' =? 0)%nat then delete r0 (rooms st)
                    else <[r0 := room']> (rooms st) in
        match roomDb st !! r0 with
        | Some d =>
            if validRoom (leftDoc now (ws_participantId c) room' d)
            then rooms st' = left
                 ∧ roomDb st'
                   = <[r0 := leftDoc now (ws_participantId c) room' d]> (roomDb st)
            else rooms st' = <[r0 := room']> (rooms st) ∧ roomDb st' = roomDb st
        | None => rooms st' = left ∧ roomDb st' = roomDb st
        end.
Proof.
  cbn zeta. unfold handleParticipantLeave.
  destruct (conns st !! ws) as [c|] eqn:Hc; [|by left].
  destruct (ws_leftHandled c); [by left|].
  destruct (ws_roomId c) as [r0|] eqn:Hr; [|by left].
  destruct (negb (truthyStr (Some r0)) || negb (truthyStr (ws_participantId c)));
    [by left|].
  cbn [rooms setConns]. destruct (rooms st !! r0) as [room|] eqn:Hroom; [|by left].
  right. exists c, r0, room. repeat (split; [done|]).
  cbn [roomDb setRooms setConns].
  destruct (roomDb st !! r0) as [d|].
  - destruct (validRoom _); [|done].
    destruct (length (pmap_delete (ws_participantId c) room) =? 0)%nat; cbn;
      by rewrite ?delete_insert_eq.
  - destruct (length (pmap_delete (ws_participantId c) room) =? 0)%nat; cbn;
      by rewrite ?delete_insert_eq.
Qed.

Lemma handleDeviceMessage_rooms now ws c data st :
  rooms (handleDeviceMessage now ws c data st).1 = rooms st
  ∧ roomDb (handleDeviceMessage now ws c data st).1 = roomDb st.
Proof.
  unfold handleDeviceMessage.
  destruct (devicePayload data) as [payload|]; [|done].
  destruct (obj_get "type" data) as [[| | |type| | | |]|]; try done.
  destruct (String.eqb type "register").
  { simpl. by destruct (updateDeviceStatus_rooms now
                          (deviceKey (obj_get "deviceId" payload)) online
                          (setDevices (insert (deviceKey (obj_get "deviceId" payload)) ws)
                             (setConns (insert ws
                                (setDeviceId (deviceKey (obj_get "deviceId" payload)) c)) st)))
      as (_ & -> & ->). }
  destruct (isRelayType type); [|done].
  destruct (strField "targetDeviceId" data) as [target|]; [|done].
  destruct (connectedDevices st !! Some target) as [t|]; [|done].
  by destruct (connOpen st t).
Qed.

(* What one event does to the registry and the persisted rooms: nothing; a
   chat message appended to one document; a join-room; or a leave that found
   the connection's transient room. *)
Lemma step_effect now e st :
  let st' := (step now e st).1 in
  (rooms st' = rooms st ∧ roomDb st' = roomDb st)
  ∨ (∃ r0 d m,
       rooms st' = rooms st ∧ roomDb st !! r0 = Some d
       ∧ roomDb st' = <[r0 := pushChatMessage m d]> (roomDb st))
  ∨ (∃ ws r0 pid name role,
       joinRequest e st = Some (ws, r0, pid, name, role)
       ∧ step now e st = handleJoinRoom now ws r0 pid name role st)
  ∨ (joinRequest e st = None
     ∧ ∃ pid r0 room,
         rooms st !! r0 = Some room
         ∧ let room' := pmap_delete pid room in
           let left := if (length room' =? 0)%nat then delete r0 (rooms st)
                       else <[r0 := room']> (rooms st) in
           match roomDb st !! r0 with
           | Some d =>
               if validRoom (leftDoc now pid room' d)
               then rooms st' = left
                    ∧ roomDb st' = <[r0 := leftDoc now pid room' d]> (roomDb st)
               else rooms st' = <[r0 := room']> (rooms st) ∧ roomDb st' = roomDb st
           | None => rooms st' = left ∧ roomDb st' = roomDb st
           end).
Proof.
  cbn zeta. destruct e as [h|ws data|ws|ws]; cbn [step].
  - left. unfold onConnection. destruct (classify h) as [c|]; [|done].
    by destruct (ws_serviceType c) as [[|]|].
  - unfold onMessage, joinRequest.
    destruct (conns st !! ws) as [c|] eqn:Hc; [|by left].
    destruct (ws_serviceType c) as [[|]|]; [| |by left].
    + unfold handleRoomMessage.
      destruct (obj_get "type" data) as [[| | |type| | | |]|]; try by left.
      destruct (String.eqb type "join-room").
      { destruct (joinArgs c data) as [[[[r0|] pid] name]|]; try by left.
        right; right; left. by eexists _, _, _, _, _. }
      destruct (String.eqb type "leave-room").
      { destruct (leave_effect now ws st)
          as [?|(c' & r0 & room & _ & _ & Hroom & Hr)]; [by left|].
        right; right; right. split; [done|]. by eexists _, _, _. }
      destruct (String.eqb type "chat-message").
      { destruct (ws_roomId c) as [r0|]; [|by left]. cbn [fst].
        destruct (saveChatMessage_frame now r0 (chatSender c data)
                    (chatSenderName c data) (chatText data) st)
          as (_ & _ & Hrooms & _).
        destruct (saveChatMessage_frame_db now r0 (chatSender c data)
                    (chatSenderName c data) (chatText data) st)
          as [Hdb|(d & m & Hd & _ & _ & Hdb)]; [by left|].
        right; left. by exists r0, d, m. }
      destruct (_ || _).
      { left. by destruct (ws_roomId c). }
      destruct (String.eqb type "admin-control-media"); [|by left].
      left. by rewrite handleAdminMediaControl_state.
    + left. apply handleDeviceMessage_rooms.
  - unfold onClose.
    destruct (conns st !! ws) as [c|] eqn:Hc; [|by left].
    destruct (ws_serviceType c) as [[|]|]; [| |by left].
    + destruct (leave_effect now ws
                  (setConns (insert ws (setReadyState CLOSED c)) st))
        as [?|(c' & r0 & room & _ & _ & Hroom & Hr)]; [by left|].
      right; right; right. split; [done|]. by eexists _, _, _.
    + left. cbn [fst].
      by destruct (updateDeviceStatus_rooms now (ws_deviceId c) offline
                     (setDevices (delete (ws_deviceId c))
                        (setConns (insert ws (setReadyState CLOSED c)) st)))
        as (_ & -> & ->).
  - left. destruct (conns st !! ws) as [c|]; [|done]. by destruct (isOpen c).
Qed.

(** ** Status transitions *)

Lemma status_leftDoc now pid room' d :
  status (leftDoc now pid room' d)
  = if (length room' =? 0)%nat && isActive d then ended else status d.
Proof.
  unfold leftDoc. replace (isActive (removeParticipant now pid d)) with (isActive d)
    by done.
  destruct ((length room' =? 0)%nat && isActive d); [|done].
  unfold endCall, calculateDuration, setCallEndTime. cbn.
  by destruct (callStartTime d).
Qed.

Lemma leftDoc_ended now pid room' d :
  (length room' =? 0)%nat = true → status d = active →
  callEndTime (leftDoc now pid room' d) = Some now
  ∧ ∀ s, callStartTime d = Some s →
      callDuration (leftDoc now pid room' d) = (now - s) / 1000.
Proof.
  intros He Ha. unfold leftDoc.
  replace (isActive (removeParticipant now pid d)) with true
    by (unfold isActive; cbn; by rewrite Ha).
  rewrite He. cbn [andb]. unfold endCall, calculateDuration, setCallEndTime. cbn.
  destruct (callStartTime d) as [s0|]; cbn; [|done].
  split; [done|]. by intros s [= ->].
Qed.

(* What a join-room does to the document and the registry entry of its own
   room r, whose stored document d passes the schema; other rooms are left
   as they were. *)
Lemma join_at_room now ws r pid name role st d :
  roomDb st !! r = Some d → validRoom d = true → status d ≠ ended →
  let st' := (handleJoinRoom now ws r pid name role st).1 in
  is_Some (rooms st' !! r)
  ∧ ∃ d', roomDb st' !! r = Some d'
    ∧ (status d' = status d
       ∧ (occupants r st' = occupants r st
          ∨ occupants r st = 0%nat
          ∨ status d ≠ waiting)
       ∨ status d = waiting ∧ status d' = active ∧ callStartTime d' = Some now
         ∧ occupants r st = 1%nat
         ∧ occupants r st'
           = match pmap_get pid (roomOf r (rooms st)) with
             | Some _ => 1%nat
             | None => 2%nat
             end).
Proof.
  intros Hd Hv Hs. cbn zeta.
  destruct (decide (length (roomOf r (rooms st)) < 2)%nat) as [Hlt|Hge].
  - destruct (loadOrCreate now r pid name role (roomDb st)) as [[d1 db1]|] eqn:Hl.
    + pose proof (loadOrCreate_valid _ _ _ _ _ _ _ _ _ Hd Hv Hl) as Hv1.
      pose proof (loadOrCreate_status _ _ _ _ _ _ _ _ _ Hd Hs Hl) as Hs1.
      destruct (loadOrCreate_lookup _ _ _ _ _ _ _ _ Hl) as [Hd1 _].
      rewrite (join_seated now ws r pid name role st d1 db1 Hlt Hl).
      rewrite validRoom_startCall, Hv1.
      assert (Hrooms : ∀ f, rooms (setRoomDb f (seated ws r pid db1 st))
                            = <[r := pmap_set pid ws (roomOf r (rooms st))]> (rooms st))
        by done.
      destruct (roomOf r (rooms st)) as [|[oid ows] rest] eqn:Er.
      * cbn [fst]. split; [cbn; rewrite lookup_insert_eq; by eexists|].
        exists d1. split; [exact Hd1|]. left. split; [done|].
        right; left. unfold occupants. by rewrite Er.
      * assert (rest = []) as -> by (destruct rest; [done|simpl in Hlt; lia]).
        unfold isWaiting. destruct (status d1) eqn:Est; cbn [fst].
        -- split; [cbn; rewrite lookup_insert_eq; by eexists|].
           exists (startCall now d1). split; [cbn; by rewrite lookup_insert_eq|].
           right. split; [congruence|]. split; [done|]. split; [done|].
           split; [unfold occupants; by rewrite Er|].
           unfold occupants, roomOf at 1. cbn [rooms seated setRoomDb].
           rewrite lookup_insert_eq. cbn [default from_option id].
           rewrite Er. cbn [pmap_set pmap_get].
           by destruct (keyEq oid pid).
        -- split; [cbn; rewrite lookup_insert_eq; by eexists|].
           exists d1. split; [exact Hd1|]. left. split; [congruence|].
           right; right. congruence.
        -- congruence.
    + rewrite (join_refused now ws r pid name role st Hlt Hl). cbn [fst].
      destruct (ensureRoom_frame r st) as (_ & _ & _ & -> & _).
      split.
      { unfold ensureRoom. destruct (rooms st !! r) eqn:E; [by rewrite E|].
        cbn. rewrite lookup_insert_eq. by eexists. }
      exists d. split; [done|]. left. split; [done|]. left.
      unfold occupants. by rewrite roomOf_ensureRoom.
  - assert (Hfull : ∃ m, rooms st !! r = Some m ∧ (2 ≤ length m)%nat).
    { unfold roomOf in Hge. destruct (rooms st !! r) as [m|]; simpl in Hge; [|lia].
      exists m. split; [done|lia]. }
    destruct Hfull as (m & Hm & Hlen).
    rewrite (join_full now ws r pid name role st m Hm Hlen). cbn [fst].
    split; [by eexists|]. exists d. split; [done|]. left. split; [done|by left].
Qed.

(* A join-room leaves the documents and registry entries of other rooms as
   they were. *)
Lemma join_other_room now ws r0 pid name role st r :
  r0 ≠ r →
  let st' := (handleJoinRoom now ws r0 pid name role st).1 in
  rooms st' !! r = rooms st !! r ∧ roomDb st' !! r = roomDb st !! r.
Proof.
  intros Hne. cbn zeta.
  destruct (join_cases now ws r0 pid name role st)
    as [(m & _ & _ & ->)|[(_ & _ & ->)|(_ & d & db1 & d' & out & Hl & -> & _)]].
  - done.
  - cbn [fst]. destruct (ensureRoom_frame r0 st) as (_ & _ & _ & -> & _).
    split; [|done]. unfold ensureRoom. destruct (rooms st !! r0); [done|].
    cbn. by rewrite lookup_insert_ne.
  - cbn. destruct (loadOrCreate_lookup _ _ _ _ _ _ _ _ Hl) as [_ Hother].
    rewrite !lookup_insert_ne by done. split; [done|]. by apply Hother.
Qed.

(** C2 (as amended) — the status of a persisted room that passes the
    schema, at one socket event whose handler runs to the end (a join-room
    whose roomId, participantId or participantName is a truthy value other
    than a string apart). A 'waiting' room becomes 'active' at exactly the
    events that take the transient registry of that room from 1 occupant to
    2, and callStartTime is then the time of the event; a join-room under a
    participantId that the transient room already has an entry for is left
    out (it is the same-id rejoin of C9). An 'active' room becomes 'ended'
    at exactly the events that remove the room's entry from the transient
    registry; callEndTime is then the time of the event and, callStartTime
    being set, callDuration is floor((callEndTime - callStartTime) / 1000),
    which is not negative when callStartTime is not later than
    callEndTime. *)
Theorem C2_status_transitions now e r st d d' :
  roomDb st !! r = Some d →
  validRoom d = true →
  ¬ unmodelledJoin e st →
  roomDb (step now e st).1 !! r = Some d' →
  let st' := (step now e st).1 in
  (status d = waiting → ¬ sameIdRejoin e r st →
     (status d' = active ↔ occupants r st = 1%nat ∧ occupants r st' = 2%nat)
     ∧ (status d' = active → callStartTime d' = Some now))
  ∧ (status d = active →
       (status d' = ended ↔ rooms st !! r ≠ None ∧ rooms st' !! r = None)
       ∧ (status d' = ended →
            callEndTime d' = Some now
            ∧ ∀ s, callStartTime d = Some s →
                callDuration d' = (now - s) / 1000
                ∧ (s ≤ now → 0 ≤ callDuration d'))).
Proof.
  intros Hd Hv _ Hd'. cbn zeta.
  (* an event that leaves the document's status and the room's entry alone *)
  assert (Hquiet : status d' = status d →
            (occupants r (step now e st).1 = occupants r st
             ∨ (occupants r (step now e st).1 ≤ occupants r st)%nat
               ∧ is_Some (rooms (step now e st).1 !! r)
             ∨ (occupants r st ≠ 1)%nat ∧ is_Some (rooms (step now e st).1 !! r)
             ∨ status d ≠ waiting ∧ is_Some (rooms (step now e st).1 !! r)) →
            (rooms (step now e st).1 !! r = rooms st !! r
             ∨ is_Some (rooms (step now e st).1 !! r)) →
            (status d = waiting → ¬ sameIdRejoin e r st →
               (status d' = active
                ↔ occupants r st = 1%nat ∧ occupants r (step now e st).1 = 2%nat)
               ∧ (status d' = active → callStartTime d' = Some now))
            ∧ (status d = active →
                 (status d' = ended
                  ↔ rooms st !! r ≠ None ∧ rooms (step now e st).1 !! r = None)
                 ∧ (status d' = ended →
                      callEndTime d' = Some now
                      ∧ ∀ s, callStartTime d = Some s →
                          callDuration d' = (now - s) / 1000
                          ∧ (s ≤ now → 0 ≤ callDuration d')))).
  { intros Hst Hocc Hroom. split.
    - intros Hw _. rewrite Hst, Hw. split; [|done]. split; [done|].
      intros [H1 H2].
      destruct Hocc as [Ho|[[Ho _]|[[Ho _]|[Ho _]]]]; [lia|lia|lia|done].
    - intros Ha. rewrite Hst, Ha. split; [|done]. split; [done|].
      intros [H1 H2]. destruct Hroom as [Hr|[m Hr]]; rewrite Hr in H2; done. }
  destruct (step_effect now e st)
    as [[Hr Hdb]|[(r0 & d0 & m & Hr & Hd0 & Hdb)
                 |[(ws & r0 & pid & name & role & Hreq & Hstep)
                  |(Hreq & pid & r0 & room & Hroom & Hleft)]]].
  - (* nothing changes *)
    rewrite Hdb, Hd in Hd'. injection Hd' as <-.
    apply Hquiet; [done|left; unfold occupants; by rewrite Hr|left; by rewrite Hr].
  - (* a chat message is appended *)
    assert (Hst : status d' = status d).
    { rewrite Hdb in Hd'. destruct (decide (r0 = r)) as [->|Hne].
      - rewrite lookup_insert_eq in Hd'. injection Hd' as <-.
        rewrite Hd in Hd0. by injection Hd0 as ->.
      - rewrite lookup_insert_ne in Hd' by done. congruence. }
    apply Hquiet; [done|left; unfold occupants; by rewrite Hr|left; by rewrite Hr].
  - (* a join-room *)
    rewrite Hstep in *.
    destruct (decide (r0 = r)) as [->|Hne].
    + assert (Hs : status d ≠ ended ∨ status d = ended).
      { destruct (status d); [left|left|right]; done. }
      destruct Hs as [Hs|Hs]; [|split; intros; congruence].
      destruct (join_at_room now ws r pid name role st d Hd Hv Hs)
        as (Hsome & d1 & Hd1 & Hcase).
      rewrite Hd1 in Hd'. injection Hd' as ->.
      destruct Hcase as [(Hst & Hocc)|(Hw & Ha & Hstart & Ho & Ho')].
      * apply Hquiet; [done| |by right].
        destruct Hocc as [Ho|[Ho|Ho]]; [by left| |by right; right; right].
        right; right; left. split; [lia|done].
      * split; [|intros; congruence].
        intros _ Hnot. split; [|done]. split; [|done]. intros _.
        split; [done|]. rewrite Ho'.
        destruct (pmap_get pid (roomOf r (rooms st))) as [w|] eqn:Hget; [|done].
        destruct Hnot. exists ws, pid, name, role. split; [done|].
        rewrite Hget. by eexists.
    + destruct (join_other_room now ws r0 pid name role st r Hne) as [Hr Hdb].
      rewrite Hdb, Hd in Hd'. injection Hd' as <-.
      apply Hquiet; [done|left; unfold occupants, roomOf; by rewrite Hr|by left].
  - (* a leave *)
    cbn zeta in Hleft.
    destruct (decide (r0 = r)) as [->|Hne].
    + rewrite Hd, validRoom_leftDoc, Hv in Hleft. destruct Hleft as [Hr Hdb].
      rewrite Hdb, lookup_insert_eq in Hd'. injection Hd' as <-.
      rewrite status_leftDoc.
      destruct (length (pmap_delete pid room) =? 0)%nat eqn:Hlen.
      * (* the room is left without occupants: its entry is removed *)
        split.
        -- intros Hw _. unfold isActive. rewrite Hw. cbn [andb].
           split; [|done]. split; [done|]. intros [H1 H2].
           unfold occupants, roomOf in H2. rewrite Hr, lookup_delete_eq in H2.
           discriminate H2.
        -- intros Ha. unfold isActive. rewrite Ha. cbn [andb].
           split.
           { split; [|done]. intros _. split; [congruence|].
             by rewrite Hr, lookup_delete_eq. }
           intros _.
           destruct (leftDoc_ended now pid (pmap_delete pid room) d Hlen Ha)
             as [Hend Hdur].
           split; [exact Hend|]. intros s Hs. rewrite (Hdur s Hs).
           split; [done|]. intros Hle. apply Z.div_pos; lia.
      * (* somebody stays *)
        cbn [andb].
        assert (Hin : rooms (step now e st).1 !! r = Some (pmap_delete pid room)).
        { by rewrite Hr, lookup_insert_eq. }
        split.
        -- intros Hw _. rewrite Hw. split; [|done]. split; [done|].
           intros [H1 H2]. unfold occupants, roomOf in H1, H2.
           rewrite Hin in H2. rewrite Hroom in H1. cbn in H1, H2.
           pose proof (pmap_delete_length pid room). lia.
        -- intros Ha. rewrite Ha. split; [|done]. split; [done|].
           intros [_ H2]. congruence.
    + assert (Hother : rooms (step now e st).1 !! r = rooms st !! r
                       ∧ roomDb (step now e st).1 !! r = roomDb st !! r).
      { destruct (roomDb st !! r0) as [d0|].
        - destruct (validRoom (leftDoc now pid (pmap_delete pid room) d0));
            destruct Hleft as [-> ->].
          + rewrite lookup_insert_ne by done. split; [|done].
            destruct (length _ =? 0)%nat;
              [by rewrite lookup_delete_ne|by rewrite lookup_insert_ne].
          + by rewrite lookup_insert_ne.
        - destruct Hleft as [-> ->]. split; [|done].
          destruct (length _ =? 0)%nat;
            [by rewrite lookup_delete_ne|by rewrite lookup_insert_ne]. }
      destruct Hother as [Hr Hdb]. rewrite Hdb, Hd in Hd'. injection Hd' as <-.
      apply Hquiet; [done|left; unfold occupants, roomOf; by rewrite Hr|by left].
Qed.

Lemma C2_status_transitions_witness :
  (let st := stateAfter aliceWaits in
   let st' := (step 3000 (Message 1%nat joinRoomMsg) st).1 in
   ∃ d', roomDb st' !! "R1" = Some d'
         ∧ status d' = active ∧ callStartTime d' = Some 3000)
  ∧ (let st := stateAfter bobAlone in
     let st' := (step 4700 (Close 1%nat) st).1 in
     ∃ d', roomDb st' !! "R1" = Some d'
           ∧ status d' = ended ∧ callEndTime d' = Some 4700
           ∧ callDuration d' = 1).
Proof.
  split; cbn zeta.
  - eexists. split; [vm_compute; reflexivity|].
    edestruct (C2_status_transitions 3000 (Message 1%nat joinRoomMsg) "R1"
                 (stateAfter aliceWaits)) as [H _].
    + vm_compute. reflexivity.
    + reflexivity.
    + intros (ws & data & c & [= <- <-] & Hc & _ & _ & Hj).
      vm_compute in Hc. injection Hc as <-. vm_compute in Hj. discriminate Hj.
    + vm_compute. reflexivity.
    + destruct H as [Hiff Hstart].
      * reflexivity.
      * intros (ws & pid & name & role & Hreq & [w Hw]).
        vm_compute in Hreq. injection Hreq as <- <- <- <-.
        vm_compute in Hw. discriminate Hw.
      * assert (Ha : status
                       (mkDbRoom "R1" (Some "R1-2000") (Some "A", "Alice", "user")
                          [mkParticipant (Some "A") "Alice" "user" 2000 None;
                           mkParticipant (Some "B") "Bob" "admin" 3000 None]
                          [] active (Some 3000) None 0 (mkMetadata 2 2) 2000)
                     = active).
        { apply Hiff. split; vm_compute; reflexivity. }
        split; [exact Ha|]. exact (Hstart Ha).
  - eexists. split; [vm_compute; reflexivity|].
    edestruct (C2_status_transitions 4700 (Close 1%nat) "R1"
                 (stateAfter bobAlone)) as [_ H].
    + vm_compute. reflexivity.
    + reflexivity.
    + intros (ws & data & c & Hcontra & _). discriminate Hcontra.
    + vm_compute. reflexivity.
    + destruct H as [Hiff Hend]; [reflexivity|].
      assert (He : status
                     (mkDbRoom "R1" (Some "R1-2000") (Some "A", "Alice", "user")
                        [mkParticipant (Some "A") "Alice" "user" 2000 (Some 3500);
                         mkParticipant (Some "B") "Bob" "admin" 3000 (Some 4700)]
                        [] ended (Some 3000) (Some 4700) 1 (mkMetadata 2 2) 4700)
                   = ended).
      { apply Hiff. split; [vm_compute; discriminate|vm_compute; reflexivity]. }
      destruct (Hend He) as [Hcet Hdur].
      split; [exact He|]. split; [exact Hcet|].
      destruct (Hdur 3000 eq_refl) as [-> _]. reflexivity.
Defined.

(** C2 as worded fails in four situations. When Alice, alone in R1, sends
    join-room again, the persisted room goes from 'waiting' to 'active'
    while the transient room still has 1 occupant. When the clock reads
    1500 at the last leave of a call started at 3000, the stored callDuration
    is floor(-1500 / 1000) = -2. When the start-call route is requested
    while Alice is alone in R1, the room goes from 'waiting' to 'active'
    with 1 occupant. And when a connection whose join-room the store has
    refused closes, an 'active' room is ended although the transient room
    had no occupant before. *)
Lemma C2_counterexample :
  ¬ transitionsAsStated "R1" (stateAfter aliceSeated)
      (step 2500 (Message 0%nat joinRoomMsg) (stateAfter aliceSeated)).1
  ∧ ¬ transitionsAsStated "R1" (stateAfter bobAlone)
        (step 1500 (Close 1%nat) (stateAfter bobAlone)).1
  ∧ ¬ transitionsAsStated "R1" (stateAfter aliceSeated)
        (afterRoute (httpStartCall 2500 "R1") (stateAfter aliceSeated))
  ∧ ¬ transitionsAsStated "R1" guestRefused
        (step 5200 (Close 0%nat) guestRefused).1.
Proof.
  split; [|split; [|split]].
  - intros H. unfold transitionsAsStated in H.
    edestruct H as (H1 & _); [vm_compute; reflexivity..|].
    destruct (proj1 (H1 eq_refl) eq_refl) as [_ Hocc].
    vm_compute in Hocc. discriminate Hocc.
  - intros H. unfold transitionsAsStated in H.
    edestruct H as (_ & _ & H3); [vm_compute; reflexivity..|].
    specialize (H3 eq_refl eq_refl). vm_compute in H3. by apply H3.
  - intros H. unfold transitionsAsStated in H.
    edestruct H as (H1 & _); [vm_compute; reflexivity..|].
    destruct (proj1 (H1 eq_refl) eq_refl) as [_ Hocc].
    vm_compute in Hocc. discriminate Hocc.
  - intros H. unfold transitionsAsStated in H.
    edestruct H as (_ & H2 & _); [vm_compute; reflexivity..|].
    destruct (proj1 (H2 eq_refl) eq_refl) as [Hocc _].
    vm_compute in Hocc. lia.
Qed.

(** ** The capacity of a room, when handlers run one at a time *)

Lemma leave_bounded now ws st :
  roomsBounded st → roomsBounded (handleParticipantLeave now ws st).1.
Proof.
  intros Hb r m.
  destruct (leave_effect now ws st)
    as [[-> _]|(c & r0 & room & _ & _ & Hroom & Hleft)]; [apply Hb|].
  cbn zeta in Hleft.
  pose proof (pmap_delete_length (ws_participantId c) room) as Hlen.
  pose proof (Hb _ _ Hroom) as Hroom2.
  assert (Hins : <[r0 := pmap_delete (ws_participantId c) room]> (rooms st) !! r
                 = Some m → (length m ≤ 2)%nat).
  { destruct (decide (r0 = r)) as [->|Hne].
    - rewrite lookup_insert_eq. intros [= <-]. lia.
    - rewrite lookup_insert_ne by done. apply Hb. }
  assert (Hleft2 : (if (length (pmap_delete (ws_participantId c) room) =? 0)%nat
                    then delete r0 (rooms st)
                    else <[r0 := pmap_delete (ws_participantId c) room]> (rooms st))
                   !! r = Some m → (length m ≤ 2)%nat).
  { destruct (length _ =? 0)%nat; [|exact Hins].
    destruct (decide (r0 = r)) as [->|Hne]; [by rewrite lookup_delete_eq|].
    rewrite lookup_delete_ne by done. apply Hb. }
  destruct (roomDb st !! r0) as [d|].
  - destruct (validRoom _); destruct Hleft as [-> _]; assumption.
  - destruct Hleft as [-> _]. assumption.
Qed.

Lemma step_bounded now e st :
  roomsBounded st → roomsBounded (step now e st).1.
Proof.
  intros Hb.
  destruct (step_effect now e st)
    as [[Hr _]|[(r0 & d0 & m & Hr & _)
               |[(ws & r0 & pid & name & role & _ & Hstep)|_]]].
  - intros r m. rewrite Hr. apply Hb.
  - intros r m'. rewrite Hr. apply Hb.
  - rewrite Hstep. by apply join_bounded.
  - destruct e as [h|ws data|ws|ws]; cbn [step].
    + unfold onConnection. destruct (classify h) as [c|]; [|done].
      by destruct (ws_serviceType c) as [[|]|].
    + unfold onMessage. destruct (conns st !! ws) as [c|]; [|done].
      destruct (ws_serviceType c) as [[|]|]; [| |done].
      * unfold handleRoomMessage.
        destruct (obj_get "type" data) as [[| | |type| | | |]|]; try done.
        destruct (String.eqb type "join-room").
        { destruct (joinArgs c data) as [[[[r0|] pid] name]|]; try done.
          by apply join_bounded. }
        destruct (String.eqb type "leave-room"); [by apply leave_bounded|].
        destruct (String.eqb type "chat-message").
        { destruct (ws_roomId c) as [r0|]; [|done]. cbn [fst]. intros r m.
          destruct (saveChatMessage_frame now r0 (chatSender c data)
                      (chatSenderName c data) (chatText data) st)
            as (_ & _ & -> & _). apply Hb. }
        destruct (_ || _); [by destruct (ws_roomId c)|].
        destruct (String.eqb type "admin-control-media"); [|done].
        by rewrite handleAdminMediaControl_state.
      * intros r m. rewrite (proj1 (handleDeviceMessage_rooms now ws c data st)).
        apply Hb.
    + unfold onClose. destruct (conns st !! ws) as [c|]; [|done].
      destruct (ws_serviceType c) as [[|]|]; [| |done].
      * by apply leave_bounded.
      * intros r m. cbn [fst].
        destruct (updateDeviceStatus_rooms now (ws_deviceId c) offline
                    (setDevices (delete (ws_deviceId c))
                       (setConns (insert ws (setReadyState CLOSED c)) st)))
          as (_ & -> & _). apply Hb.
    + destruct (conns st !! ws) as [c|]; [|done]. by destruct (isOpen c).
Qed.

(* With every handler run to the end before the next event is taken, no
   transient room ever holds more than 2 participants. *)
Lemma reachable_bounded st : reachable st → roomsBounded st.
Proof.
  apply reachable_invariant.
  - intros db ddb r m. simpl. by rewrite lookup_empty.
  - apply step_bounded.
Qed.

(** C1 — capacity, evaluated on a schedule in which two join-room handlers
    are suspended at the same time. Carol (connection 2) is the sole
    occupant of R1, whose persisted room is active and lists Alice, Bob and
    Carol. Alice (connection 3) and Bob (connection 4) each send join-room,
    and Bob's message arrives before the store has answered Alice's handler:
    both handlers have passed the capacity test with one occupant seated.
    When the store answers, both are seated: the transient room holds three
    connections, each joiner is sent 'ready' and nobody is sent 'full'. When
    Alice's handler has finished before Bob's message is taken, Bob is sent
    'full' and the room holds two. *)
Theorem C1_suspended_joins_exceed_capacity :
  roomOf "R1" (rooms (stateAfter carolAlone)) = [(Some "C", 2%nat)]
  ∧ schedRun racingJoins (stateAfter carolAlone, [])
    = ((setRooms
          (insert "R1" [(Some "C", 2%nat); (Some "A", 3%nat); (Some "B", 4%nat)])
          (stateAfter carolAlone), []),
       [(3%nat,
         [("type", JStr "room-status"); ("status", JStr "ready");
          ("roomId", JStr "R1"); ("role", JStr "user");
          ("otherParticipant",
           JObj [("id", JStr "C"); ("name", JStr "Carol"); ("role", JStr "user")])]);
        (3%nat,
         [("type", JStr "chat-history"); ("roomId", JStr "R1");
          ("chatMessages", JArr []); ("totalMessages", JNum 0)]);
        (2%nat,
         [("type", JStr "participant-joined"); ("participantId", JStr "A");
          ("participantName", JStr "Alice"); ("role", JStr "user")]);
        (4%nat,
         [("type", JStr "room-status"); ("status", JStr "ready");
          ("roomId", JStr "R1"); ("role", JStr "user");
          ("otherParticipant",
           JObj [("id", JStr "C"); ("name", JStr "Carol"); ("role", JStr "user")])]);
        (4%nat,
         [("type", JStr "chat-history"); ("roomId", JStr "R1");
          ("chatMessages", JArr []); ("totalMessages", JNum 0)]);
        (2%nat,
         [("type", JStr "participant-joined"); ("participantId", JStr "B");
          ("participantName", JStr "Bob"); ("role", JStr "user")])])
  ∧ run [(2000, Message 3%nat joinRoomMsg); (2010, Message 4%nat joinRoomMsg)]
      (stateAfter carolAlone)
    = (setRooms (insert "R1" [(Some "C", 2%nat); (Some "A", 3%nat)])
         (stateAfter carolAlone),
       [(3%nat,
         [("type", JStr "room-status"); ("status", JStr "ready");
          ("roomId", JStr "R1"); ("role", JStr "user");
          ("otherParticipant",
           JObj [("id", JStr "C"); ("name", JStr "Carol"); ("role", JStr "user")])]);
        (3%nat,
         [("type", JStr "chat-history"); ("roomId", JStr "R1");
          ("chatMessages", JArr []); ("totalMessages", JNum 0)]);
        (2%nat,
         [("type", JStr "participant-joined"); ("participantId", JStr "A");
          ("participantName", JStr "Alice"); ("role", JStr "user")]);
        (4%nat,
         [("type", JStr "room-status"); ("status", JStr "full");
          ("roomId", JStr "R1")])]).
Proof. repeat split; vm_compute; reflexivity. Qed.
